(** * time-to-boot-server: a model of [main.go] and its measurement loop

    The program boots a server as a child process, polls a connection check
    until it succeeds, records the elapsed time, kills the child and repeats;
    the durations of the counted runs are then summarised.

    The Go code talks to the outside world (clock, network, processes,
    console).  Every such call is an [Event] appended to the history of the
    run, and the answers of the world come from an environment [Env] that is
    indexed by the position of the call in the history.  A [float64] is a
    finite value (a rational), a NaN or an infinity; the conversions between
    [int64] and [float64] round and overflow as Go's do. *)

From Stdlib Require Import ZArith QArith Qround Lqa String List Lia Bool.
Import ListNotations.

Local Open Scope string_scope.
Local Open Scope list_scope.
Local Open Scope Z_scope.

(** ** Data of the program *)

(** [time.Time], as nanoseconds on the wall clock. *)
Definition Time := Z.

(** [time.Duration]: an [int64] count of nanoseconds. *)
Definition Duration := Z.

(** Go's [error] values, by their message. *)
Definition error := string.

(** [net.Conn]: an open connection. *)
Record Conn := { conn_id : nat }.

(** [*http.Response]: the status code and the body stream. *)
Record Response := { StatusCode : Z; Body : nat }.

(** [*exec.Cmd] once started: the child process. *)
Record Cmd := { Process : nat }.

(** [float64]: a finite value, NaN, or an infinity with its sign. *)
Inductive float64 :=
| Finite (q : Q)
| NaN
| Inf (negative : bool).

Inductive Color := Cyan | Green | Yellow.

(** Operands of the [color.X(format, operands...)] calls. *)
Inductive Arg :=
| ArgDuration (d : Duration)
| ArgDurations (ds : list Duration)
| ArgFloat (f : float64).

(** ** Interactions with the outside world *)

Inductive Event :=
| ENow (t : Time)
| ESince (start : Time) (d : Duration)
| EStart (command : string) (args : list string) (r : Cmd + error)
| EDial (network target : string) (r : Conn + error)
| EGet (target : string) (r : Response + error)
| EReadAll (body : nat)
| EConnClose (c : Conn)
| EBodyClose (body : nat)
| EKill (pid : nat)
| EWait (pid : nat)
| ESleep (d : Duration)
| EPrint (c : Color) (format : string) (args : list Arg).

(** What the world answers to the call made as the [k]-th interaction. *)
Record Env := {
  clock : nat -> Time;
  start_process : nat -> string -> list string -> Cmd + error;
  net_dial : nat -> string -> string -> Conn + error;
  http_get : nat -> string -> Response + error
}.

(** How a computation ends: normally, through [log.Fatal] (message printed,
    exit status 1), through a run-time panic, or still inside the polling
    loop of [measure] when the iterations granted to the model are used up. *)
Inductive Outcome (A : Type) :=
| Done (a : A)
| Fatal (msg : string)
| Panic (msg : string)
| Polling.

Arguments Done {A} a.
Arguments Fatal {A} msg.
Arguments Panic {A} msg.
Arguments Polling {A}.

(** ** A state and exit monad over the history *)

Definition M (A : Type) : Type := list Event -> Outcome A * list Event.

Definition ret {A} (a : A) : M A := fun h => (Done a, h).

Definition bind {A B} (c : M A) (k : A -> M B) : M B :=
  fun h =>
    match c h with
    | (Done a, h') => k a h'
    | (Fatal msg, h') => (Fatal msg, h')
    | (Panic msg, h') => (Panic msg, h')
    | (Polling, h') => (Polling, h')
    end.

Declare Scope go_scope.
Delimit Scope go_scope with go.
Notation "x <- c ;; k" := (bind c (fun x => k))
  (at level 61, c at next level, right associativity) : go_scope.
Notation "c ;; k" := (bind c (fun _ => k))
  (at level 61, right associativity) : go_scope.
Local Open Scope go_scope.

(** Append one interaction to the history. *)
Definition emit (e : Event) : M unit := fun h => (Done tt, h ++ [e]).

(** The position of the next interaction. *)
Definition position : M nat := fun h => (Done (List.length h), h).

(** [log.Fatal(msg)]: report and exit. *)
Definition log_Fatal {A} (msg : string) : M A := fun h => (Fatal msg, h).

Definition panic {A} (msg : string) : M A := fun h => (Panic msg, h).

Definition spin {A} : M A := fun h => (Polling, h).

(** ** Go's fixed-width integers *)

Definition minInt64 : Z := - 2 ^ 63.
Definition maxInt64 : Z := 2 ^ 63 - 1.

(** Wrap-around of [int64] arithmetic. *)
Definition wrap64 (z : Z) : Z := (z + 2 ^ 63) mod 2 ^ 64 - 2 ^ 63.

(** [Time.Sub] saturates at the bounds of [Duration]. *)
Definition saturate (z : Z) : Duration := Z.max minInt64 (Z.min maxInt64 z).

Definition Second : Duration := 1000000000.

Section Program.

Variable E : Env.

(** ** The standard-library calls of [main.go] *)

Definition time_Now : M Time :=
  k <- position ;;
  emit (ENow (clock E k)) ;;
  ret (clock E k).

Definition time_Since (start : Time) : M Duration :=
  k <- position ;;
  emit (ESince start (saturate (clock E k - start))) ;;
  ret (saturate (clock E k - start)).

Definition time_Sleep (d : Duration) : M unit := emit (ESleep d).

Definition net_Dial (network target : string) : M (Conn + error) :=
  k <- position ;;
  emit (EDial network target (net_dial E k network target)) ;;
  ret (net_dial E k network target).

Definition http_Get (target : string) : M (Response + error) :=
  k <- position ;;
  emit (EGet target (http_get E k target)) ;;
  ret (http_get E k target).

Definition ioutil_ReadAll (body : nat) : M unit := emit (EReadAll body).

Definition conn_Close (c : Conn) : M unit := emit (EConnClose c).

Definition Body_Close (resp : Response) : M unit := emit (EBodyClose (Body resp)).

Definition Process_Kill (cmd : Cmd) : M unit := emit (EKill (Process cmd)).

Definition Process_Wait (cmd : Cmd) : M unit := emit (EWait (Process cmd)).

Definition color_Print (c : Color) (format : string) (args : list Arg) : M unit :=
  emit (EPrint c format args).

(** ** [main.go] *)

(** [boot]: [exec.Command] then [cmd.Start]. *)
Definition boot (command : string) (args : list string) : M (Cmd + error) :=
  k <- position ;;
  emit (EStart command args (start_process E k command args)) ;;
  ret (start_process E k command args).

(** A [func()] value; [None] is [nil]. *)
Definition HouseKeeper := option (M unit).

Definition ConnectionFunction := string -> M (bool * HouseKeeper).

Definition tryConnectingWithTCP : ConnectionFunction := fun target =>
  r <- net_Dial "tcp" target ;;
  match r with
  | inl conn => ret (true, Some (conn_Close conn))
  | inr _ => ret (false, None)
  end.

Definition tryConnectingWithHTTPGet : ConnectionFunction := fun target =>
  r <- http_Get target ;;
  match r with
  | inl resp =>
      if StatusCode resp =? 200
      then ioutil_ReadAll (Body resp) ;; ret (true, Some (Body_Close resp))
      else ret (false, None)
  | inr _ => ret (false, None)
  end.

Definition connectionFunctionFor (mode : string) : M ConnectionFunction :=
  if String.eqb mode "tcp-connect" then ret tryConnectingWithTCP
  else if String.eqb mode "http-get" then ret tryConnectingWithHTTPGet
  else log_Fatal (String.append "Unknow mode: " mode).

(** Calling a [func()] value; calling [nil] panics. *)
Definition call (f : HouseKeeper) : M unit :=
  match f with
  | Some body => body
  | None => panic "invalid memory address or nil pointer dereference"
  end.

(** The [for { ... }] loop of [measure].  The Go loop has no bound; [fuel] is
    the number of iterations the model is willing to follow. *)
Fixpoint poll (fuel : nat) (connectionFunction : ConnectionFunction)
    (target : string) (start : Time) (cmd : Cmd) : M Duration :=
  match fuel with
  | O => spin
  | S fuel' =>
      r <- connectionFunction target ;;
      let '(status, houseKeeper) := r in
      if status
      then
        duration <- time_Since start ;;
        call houseKeeper ;;
        Process_Kill cmd ;;
        Process_Wait cmd ;;
        ret duration
      else poll fuel' connectionFunction target start cmd
  end.

Definition measure (fuel : nat) (mode target command : string)
    (args : list string) : M Duration :=
  connectionFunction <- connectionFunctionFor mode ;;
  start <- time_Now ;;
  r <- boot command args ;;
  match r with
  | inr err => log_Fatal err
  | inl cmd => poll fuel connectionFunction target start cmd
  end.

End Program.

(** ** The statistics package

    [benchmark] calls six functions of the package
    [github.com/montanaflynn/stats], which is not part of [main.go].  Each
    returns a value and an [error] ([None] is [nil]); [benchmark] drops every
    error.  The driver is written against this interface. *)

Definition Float64Data := list float64.

Record Outliers := { Mild : Float64Data; Extreme : Float64Data }.

Class Stats := {
  stats_Min : Float64Data -> float64 * option error;
  stats_Max : Float64Data -> float64 * option error;
  stats_Median : Float64Data -> float64 * option error;
  stats_StandardDeviation : Float64Data -> float64 * option error;
  stats_QuartileOutliers : Float64Data -> Outliers * option error;
  stats_Percentile : Float64Data -> float64 -> float64 * option error
}.

(** [int64(f)]: the fraction is dropped, towards zero.  When the result
    does not fit an [int64] (a value beyond the range, a NaN, an infinity)
    Go leaves the result to the implementation; it is the smallest [int64]
    on amd64, which is what the model returns. *)
Definition int64_of_float64 (f : float64) : Z :=
  match f with
  | Finite q =>
      let t := Z.quot (Qnum q) (Zpos (Qden q)) in
      if (minInt64 <=? t) && (t <=? maxInt64) then t else minInt64
  | NaN | Inf _ => minInt64
  end.

(** The integer a [float64] holds for a non-negative integer [n]: [n]
    itself up to 53 significant bits, else the nearest multiple of the
    spacing of the [float64] values around [n], the even one on a tie. *)
Definition round_to_53_bits (n : Z) : Z :=
  let e := Z.log2 n - 52 in
  if e <=? 0 then n
  else
    let u := 2 ^ e in
    let q := n / u in
    let r := n mod u in
    if 2 * r <? u then q * u
    else if u <? 2 * r then (q + 1) * u
    else if Z.even q then q * u else (q + 1) * u.

(** [float64(n)] for an [int64]: rounded to the nearest [float64]. *)
Definition float64_of_int64 (n : Z) : float64 :=
  if 0 <=? n
  then Finite (inject_Z (round_to_53_bits n))
  else Finite (inject_Z (- round_to_53_bits (- n))).

Definition float64ToDuration (f : float64) : Duration := int64_of_float64 f.

Definition float64DataToDurations (data : Float64Data) : list Duration :=
  map float64ToDuration data.

(** [durations[i] = v] on a slice; out of range is a run-time panic, which
    the callers below never reach. *)
Fixpoint slice_set (l : Float64Data) (i : nat) (v : float64) : Float64Data :=
  match l, i with
  | [], _ => []
  | _ :: t, O => v :: t
  | x :: t, S j => x :: slice_set t j v
  end.

(** [for i := from; ...; i++] with [count] iterations left, threading the
    variables the body assigns. *)
Fixpoint for_range {S : Type} (count : nat) (i : Z) (body : Z -> S -> M S)
    (s : S) : M S :=
  match count with
  | O => ret s
  | S count' => s' <- body i s ;; for_range count' (i + 1) body s'
  end.

(** The values of the literal [[]float64{75.0, 80.0, 85.0, 90.0, 95.0,
    97.5, 98.0, 99.0, 99.9, 100.0}].  All are [float64] values but 99.9,
    for which the constant is the nearest [float64],
    3514918771674317 / 2^45. *)
Definition percentile_values : list Q :=
  [75; 80; 85; 90; 95; 195 # 2; 98; 99;
   3514918771674317 # 35184372088832; 100]%Q.

Definition percentiles : Float64Data := map Finite percentile_values.

Section Driver.

Variable E : Env.
Context {L : Stats}.

(** The first loop of [benchmark]. *)
Definition dry_runs (fuel : nat) (mode : string) (dryRuns : Z)
    (pauseBetweenRuns : Duration) (target command : string)
    (args : list string) : M unit :=
  for_range (Z.to_nat dryRuns) 0
    (fun _ _ =>
       duration <- measure E fuel mode target command args ;;
       color_Print Cyan "  - %s" [ArgDuration duration] ;;
       time_Sleep pauseBetweenRuns)
    tt.

(** The second loop: [durations] is the slice filled in place. *)
Definition counted_runs (fuel : nat) (mode : string) (runs : Z)
    (pauseBetweenRuns : Duration) (target command : string)
    (args : list string) (durations : Float64Data) : M Float64Data :=
  for_range (Z.to_nat runs) 0
    (fun i durations =>
       duration <- measure E fuel mode target command args ;;
       let durations := slice_set durations (Z.to_nat i) (float64_of_int64 duration) in
       color_Print Green "  - %s" [ArgDuration duration] ;;
       time_Sleep pauseBetweenRuns ;;
       ret durations)
    durations.

(** The lines printed for one percentile. *)
Definition report_percentile (durations : Float64Data) (p : float64) : M unit :=
  let r := fst (stats_Percentile durations p) in
  color_Print Yellow "  - %f%%: %s" [ArgFloat p; ArgDuration (float64ToDuration r)].

Fixpoint report_percentiles (durations : Float64Data) (ps : Float64Data) : M unit :=
  match ps with
  | [] => ret tt
  | p :: ps' => report_percentile durations p ;; report_percentiles durations ps'
  end.

(** Lines 114 to 134: the statistics block. *)
Definition report (durations : Float64Data) : M unit :=
  let min := fst (stats_Min durations) in
  color_Print Yellow "Min: %s" [ArgDuration (float64ToDuration min)] ;;
  let max := fst (stats_Max durations) in
  color_Print Yellow "Max: %s" [ArgDuration (float64ToDuration max)] ;;
  let med := fst (stats_Median durations) in
  let dev := fst (stats_StandardDeviation durations) in
  color_Print Yellow "Median: %s (std dev %s)"
    [ArgDuration (float64ToDuration med); ArgDuration (float64ToDuration dev)] ;;
  let outliers := fst (stats_QuartileOutliers durations) in
  color_Print Yellow "Ouliers:" [] ;;
  color_Print Yellow "  - mild: %s" [ArgDurations (float64DataToDurations (Mild outliers))] ;;
  color_Print Yellow "  - extreme: %s" [ArgDurations (float64DataToDurations (Extreme outliers))] ;;
  color_Print Yellow "Percentiles:" [] ;;
  report_percentiles durations percentiles.

Definition benchmark (fuel : nat) (mode : string) (dryRuns runs : Z)
    (pauseBetweenRuns : Duration) (target command : string)
    (args : list string) : M unit :=
  color_Print Cyan "Dry runs" [] ;;
  dry_runs fuel mode dryRuns pauseBetweenRuns target command args ;;
  durations <- (if runs <? 0
                then panic "makeslice: len out of range"
                else ret (repeat (Finite 0) (Z.to_nat runs))) ;;
  color_Print Green "Runs" [] ;;
  durations <- counted_runs fuel mode runs pauseBetweenRuns target command args durations ;;
  report durations.

(** The [app.Action] of [main], on the values the flags were parsed into. *)
Definition action (fuel : nat) (mode : string) (dryRuns runs pauseDuration : Z)
    (target executable : string) (args : list string) : M unit :=
  if (String.length executable =? 0)%nat
  then log_Fatal "An executable must be specified"
  else benchmark fuel mode dryRuns runs (wrap64 (pauseDuration * Second))
         target executable args.

End Driver.

(** ** The statistics, as the specification describes them

    The source of the statistics package is not among the files of the
    repository.  The functions below follow the specification of the tool:
    the standard formulas over a RunSet of finite values, with exact
    rational arithmetic. *)

Module stats.

Local Open Scope Q_scope.

(** Modelled from the spec: the mild and the extreme outliers of a RunSet,
    the result of the missing [stats.QuartileOutliers]. *)
Record Outliers := { Mild : list Q; Extreme : list Q }.

(** Modelled from the spec: the error a statistics function returns for an
    empty RunSet (section 7, statistics computation error); the package that
    defines it is missing from the sources. *)
Definition EmptyInput : error := "Input must not be empty.".

(** Modelled from the spec: the error of the missing package for a
    percentage outside of 0 to 100. *)
Definition BoundsErr : error := "Input is outside of range.".

(** Modelled from the spec: the sorted RunSet that median, quartiles and
    percentiles are read from (insertion into an ascending list); the
    package's sorting helper is missing. *)
Fixpoint insert (x : Q) (l : list Q) : list Q :=
  match l with
  | [] => [x]
  | y :: t => if Qle_bool x y then x :: y :: t else y :: insert x t
  end.

(** Modelled from the spec: the sorted copy of the RunSet, for the missing
    sorting helper of the package. *)
Definition sortedCopy (input : list Q) : list Q :=
  fold_right insert [] input.

(** Modelled from the spec: the smaller of two measurements, for the
    missing [stats.Min]. *)
Definition min2 (a b : Q) : Q := if Qle_bool a b then a else b.

(** Modelled from the spec: the larger of two measurements, for the missing
    [stats.Max]. *)
Definition max2 (a b : Q) : Q := if Qle_bool a b then b else a.

(** Modelled from the spec: [stats.Min], the minimum of the RunSet; on an
    empty RunSet the statistic is undefined, reported as a zero value with
    an error. *)
Definition Min (input : list Q) : Q * option error :=
  match input with
  | [] => (0, Some EmptyInput)
  | x :: t => (fold_left min2 t x, None)
  end.

(** Modelled from the spec: [stats.Max], the maximum of the RunSet. *)
Definition Max (input : list Q) : Q * option error :=
  match input with
  | [] => (0, Some EmptyInput)
  | x :: t => (fold_left max2 t x, None)
  end.

(** Modelled from the spec: the sum of the RunSet, for the mean of the
    standard formulas. *)
Definition Sum (input : list Q) : Q :=
  fold_left Qplus input 0.

(** Modelled from the spec: the arithmetic mean of a non-empty RunSet. *)
Definition Mean (input : list Q) : Q :=
  Sum input / inject_Z (Z.of_nat (List.length input)).

(** Modelled from the spec: [stats.Median], the standard median: the middle
    element of the sorted RunSet, or the mean of the two middle elements
    when the size is even. *)
Definition Median (input : list Q) : Q * option error :=
  let c := sortedCopy input in
  let l := List.length c in
  match l with
  | O => (0, Some EmptyInput)
  | _ =>
      if Nat.even l
      then ((nth (l / 2 - 1) c 0 + nth (l / 2) c 0) / 2, None)
      else (nth (l / 2) c 0, None)
  end.

(** Modelled from the spec: the variance of the RunSet, the mean of the
    squared distances to the mean, of which the standard deviation is the
    root. *)
Definition Variance (input : list Q) : Q :=
  let m := Mean input in
  fold_left (fun acc n => acc + (n - m) * (n - m)) input 0
  / inject_Z (Z.of_nat (List.length input)).

(** Modelled from the spec: the square root, to the nanosecond resolution of
    a Measurement (the integer part of the root). *)
Definition Sqrt (q : Q) : Q := inject_Z (Z.sqrt (Qfloor q)).

(** Modelled from the spec: [stats.StandardDeviation], the standard
    deviation of the RunSet. *)
Definition StandardDeviation (input : list Q) : Q * option error :=
  match input with
  | [] => (0, Some EmptyInput)
  | _ => (Sqrt (Variance input), None)
  end.

(** Modelled from the spec: [stats.Percentile], the linear-interpolation
    percentile over the sorted RunSet: the rank [percent / 100 * (n - 1)]
    falls between two neighbours of the sorted RunSet and the value is
    interpolated between them, so that the 100th percentile is the maximum
    and the 0th the minimum. *)
Definition Percentile (input : list Q) (percent : Q)
    : Q * option error :=
  let c := sortedCopy input in
  match c with
  | [] => (0, Some EmptyInput)
  | _ =>
      if Qle_bool 0 percent && Qle_bool percent 100
      then
        let rank := percent / 100 * inject_Z (Z.of_nat (List.length c - 1)) in
        let lo := Z.to_nat (Qfloor rank) in
        let frac := rank - inject_Z (Qfloor rank) in
        let a := nth lo c 0 in
        let b := nth (S lo) c a in
        (a + frac * (b - a), None)
      else (0, Some BoundsErr)
  end.

(** Modelled from the spec: the first and third quartiles, by the same
    linear-interpolation method as the percentile report. *)
Definition Q1 (input : list Q) : Q := fst (Percentile input 25).
Definition Q3 (input : list Q) : Q := fst (Percentile input 75).

(** Modelled from the spec: the interquartile range, IQR = Q3 - Q1. *)
Definition InterQuartileRange (input : list Q) : Q :=
  Q3 input - Q1 input.

(** Modelled from the spec: a value beyond [k] times the IQR from the
    nearest quartile (Tukey's fences at distance [k * IQR]). *)
Definition beyond (k : Q) (input : list Q) (v : Q) : bool :=
  let iqr := InterQuartileRange input in
  negb (Qle_bool (Q1 input - k * iqr) v) || negb (Qle_bool v (Q3 input + k * iqr)).

(** Modelled from the spec: [stats.QuartileOutliers]: a value is a mild
    outlier when it lies beyond 1.5 x IQR from the nearest quartile but
    within 3 x IQR, and an extreme outlier when beyond 3 x IQR. *)
Definition QuartileOutliers (input : list Q) : Outliers * option error :=
  match input with
  | [] => ({| Mild := []; Extreme := [] |}, Some EmptyInput)
  | _ =>
      ({| Mild := filter (fun v => beyond (3 # 2) input v && negb (beyond 3 input v)) input;
          Extreme := filter (beyond 3 input) input |}, None)
  end.

End stats.

(** ** The quartiles of the package

    The source of [github.com/montanaflynn/stats] is not among the files of
    the repository.  Its functions [Quartile] and [QuartileOutliers] do not
    interpolate: the first quartile is the median of the lower half of the
    sorted data and the third the median of the upper half, the middle
    value left out of both halves when the size is odd.  The definitions
    below follow that method, on finite values. *)

Module halves.

Local Open Scope Q_scope.

(** The package's [Median] of a slice; [None] on an empty slice, where the
    package returns NaN and an error. *)
Definition Median (c : list Q) : option Q :=
  match stats.Median c with
  | (m, None) => Some m
  | (_, Some _) => None
  end.

(** The package's [Quartile]: the first and the third quartile, with the
    cut-off places [c1] and [c2] of the two halves. *)
Definition Quartile (input : list Q) : option Q * option Q :=
  let copy := stats.sortedCopy input in
  let il := List.length copy in
  let c1 := if Nat.even il then (il / 2)%nat else ((il - 1) / 2)%nat in
  let c2 := if Nat.even il then (il / 2)%nat else (c1 + 1)%nat in
  (Median (firstn c1 copy), Median (skipn c2 copy)).

(** The fences at [k] times the interquartile range from the quartiles. *)
Definition fences (k q1 q3 : Q) : Q * Q :=
  (q1 - k * (q3 - q1), q3 + k * (q3 - q1)).

Definition outside (fence : Q * Q) (v : Q) : bool :=
  negb (Qle_bool (fst fence) v) || negb (Qle_bool v (snd fence)).

(** The package's [QuartileOutliers]: the values of the sorted data outside
    of the outer fences (3 times the range) are extreme, the others
    outside of the inner fences (1.5 times) are mild.  Without quartiles
    (they are NaN) no comparison holds and nothing is an outlier. *)
Definition QuartileOutliers (input : list Q) : stats.Outliers :=
  match Quartile input with
  | (Some q1, Some q3) =>
      let copy := stats.sortedCopy input in
      {| stats.Mild :=
           filter (fun v => negb (outside (fences 3 q1 q3) v)
                            && outside (fences (3 # 2) q1 q3) v) copy;
         stats.Extreme := filter (outside (fences 3 q1 q3)) copy |}
  | _ => {| stats.Mild := []; stats.Extreme := [] |}
  end.

End halves.

(** Modelled from the spec: the finite values of a slice, when all of them
    are finite: the RunSet the statistics of the specification are about. *)
Fixpoint finite_values (data : Float64Data) : option (list Q) :=
  match data with
  | [] => Some []
  | Finite q :: t =>
      match finite_values t with
      | Some qs => Some (q :: qs)
      | None => None
      end
  | _ :: _ => None
  end.

(** Modelled from the spec: a statistic of the specification as a function
    of the missing package: on finite data it returns the statistic; where
    the statistic is undefined it returns NaN along with the error. *)
Definition as_float64 (r : Q * option error) : float64 * option error :=
  match r with
  | (v, None) => (Finite v, None)
  | (_, Some err) => (NaN, Some err)
  end.

(** Modelled from the spec: the error for data that are not a RunSet (a
    NaN or an infinity among them), which [benchmark] never produces. *)
Definition NotFinite : error := "Input is not finite.".

(** Modelled from the spec: a statistic of the specification applied to a
    slice of [float64] values. *)
Definition on_finite (f : list Q -> Q * option error) (data : Float64Data)
    : float64 * option error :=
  match finite_values data with
  | Some qs => as_float64 (f qs)
  | None => (NaN, Some NotFinite)
  end.

(** Modelled from the spec: the statistics of the specification, behind the
    six functions of the missing package that [benchmark] calls. *)
#[export] Instance spec_stats : Stats := {|
  stats_Min := on_finite stats.Min;
  stats_Max := on_finite stats.Max;
  stats_Median := on_finite stats.Median;
  stats_StandardDeviation := on_finite stats.StandardDeviation;
  stats_QuartileOutliers := fun data =>
    match finite_values data with
    | Some qs =>
        let r := stats.QuartileOutliers qs in
        ({| Mild := map Finite (stats.Mild (fst r));
            Extreme := map Finite (stats.Extreme (fst r)) |}, snd r)
    | None => ({| Mild := []; Extreme := [] |}, Some NotFinite)
    end;
  stats_Percentile := fun data percent =>
    match percent with
    | Finite p => on_finite (fun qs => stats.Percentile qs p) data
    | _ => (NaN, Some stats.BoundsErr)
    end
|}.

(** A world in which every call succeeds at once: the clock advances by one
    millisecond per interaction, every process starts, every connection
    opens and every request is answered with status 200. *)
Definition ready_world : Env := {|
  clock := fun k => Z.of_nat k * 1000000;
  start_process := fun k _ _ => inl {| Process := k |};
  net_dial := fun k _ _ => inl {| conn_id := k |};
  http_get := fun k _ => inl {| StatusCode := 200; Body := k |}
|}.

(** A world in which the server answers from the fourth interaction on:
    connections are refused before, and requests get status 503. *)
Definition slow_world : Env := {|
  clock := fun k => Z.of_nat k * 1000000;
  start_process := fun k _ _ => inl {| Process := k |};
  net_dial := fun k _ _ =>
    if (k <? 4)%nat then inr "connection refused" else inl {| conn_id := k |};
  http_get := fun k _ =>
    if (k <? 4)%nat then inl {| StatusCode := 503; Body := k |}
    else inl {| StatusCode := 200; Body := k |}
|}.

(** ** Vocabulary for the statements about [measure] *)

Section Checks.

Variable E : Env.

(** The check [connectionFunctionFor] resolves a valid [mode] to. *)
Definition prober (mode : string) : ConnectionFunction :=
  if String.eqb mode "tcp-connect"
  then tryConnectingWithTCP E
  else tryConnectingWithHTTPGet E.

(** The network call a check of [mode] makes as the [k]-th interaction. *)
Definition check_event (mode target : string) (k : nat) : Event :=
  if String.eqb mode "tcp-connect"
  then EDial "tcp" target (net_dial E k "tcp" target)
  else EGet target (http_get E k target).

(** Whether the world answers that call the way the check waits for: the
    connection opens, or the response arrives with status 200. *)
Definition answers (mode target : string) (k : nat) : bool :=
  if String.eqb mode "tcp-connect"
  then match net_dial E k "tcp" target with inl _ => true | inr _ => false end
  else match http_get E k target with
       | inl resp => StatusCode resp =? 200
       | inr _ => false
       end.

(** What a check answered at position [k] reads before it returns. *)
Definition drained (mode target : string) (k : nat) : list Event :=
  if String.eqb mode "tcp-connect"
  then []
  else match http_get E k target with
       | inl resp => [EReadAll (Body resp)]
       | inr _ => []
       end.

(** What the release action of a check answered at position [k] closes. *)
Definition released (mode target : string) (k : nat) : list Event :=
  if String.eqb mode "tcp-connect"
  then match net_dial E k "tcp" target with
       | inl conn => [EConnClose conn]
       | inr _ => []
       end
  else match http_get E k target with
       | inl resp => [EBodyClose (Body resp)]
       | inr _ => []
       end.

End Checks.

(** The two modes [connectionFunctionFor] knows. *)
Definition valid_mode (mode : string) : bool :=
  String.eqb mode "tcp-connect" || String.eqb mode "http-get".

(** A RunSet in which every measurement is [v]. *)
Definition uniform (v : Q) (data : list Q) : Prop :=
  Forall (fun x => (x == v)%Q) data.

(** The interactions that outline a benchmark: the clock readings, the
    start and the end of each child, the pauses and the printed lines; the
    network traffic of the checks is left out. *)
Definition outline (e : Event) : bool :=
  match e with
  | ENow _ | EStart _ _ _ | ESince _ _ | EKill _ | EWait _
  | ESleep _ | EPrint _ _ _ => true
  | _ => false
  end.

(** A line of the statistics block. *)
Definition summary_line (e : Event) : bool :=
  match e with
  | EPrint Yellow _ _ => true
  | _ => false
  end.

(** A printed line: no timestamp, no process, no network. *)
Definition printed (e : Event) : bool :=
  match e with
  | EPrint _ _ _ => true
  | _ => false
  end.

(** The statistics block over [durations], line by line: what main.go 114
    to 134 prints, each value being what the statistics function returns on
    [durations], converted by [float64ToDuration]. *)
Definition statistics_block {L : Stats} (durations : Float64Data) : list Event :=
  [EPrint Yellow "Min: %s"
     [ArgDuration (float64ToDuration (fst (stats_Min durations)))];
   EPrint Yellow "Max: %s"
     [ArgDuration (float64ToDuration (fst (stats_Max durations)))];
   EPrint Yellow "Median: %s (std dev %s)"
     [ArgDuration (float64ToDuration (fst (stats_Median durations)));
      ArgDuration (float64ToDuration (fst (stats_StandardDeviation durations)))];
   EPrint Yellow "Ouliers:" [];
   EPrint Yellow "  - mild: %s"
     [ArgDurations
        (float64DataToDurations (Mild (fst (stats_QuartileOutliers durations))))];
   EPrint Yellow "  - extreme: %s"
     [ArgDurations
        (float64DataToDurations (Extreme (fst (stats_QuartileOutliers durations))))];
   EPrint Yellow "Percentiles:" []]
  ++ map (fun p =>
            EPrint Yellow "  - %f%%: %s"
              [ArgFloat (Finite p);
               ArgDuration
                 (float64ToDuration (fst (stats_Percentile durations (Finite p))))])
       percentile_values.

(** Worlds in which every measurement ends: the child always starts, and
    from any position on a check is answered within [fuel] attempts. *)
Definition always_starts (E : Env) (command : string) (args : list string) : Prop :=
  forall k, exists cmd, start_process E k command args = inl cmd.

Definition answers_within (E : Env) (mode target : string) (fuel : nat) : Prop :=
  forall k, exists n,
    (n < fuel)%nat
    /\ (forall i, (i < n)%nat -> answers E mode target (k + i) = false)
    /\ answers E mode target (k + n) = true.

(** One completed measurement: when it started, the child it booted and
    the elapsed duration it returned. *)
Record Measurement := { started : Time; child : Cmd; elapsed : Duration }.

(** The outline of one call of [measure]: the start timestamp, the child
    started, the elapsed duration taken, the child killed and waited for. *)
Definition measure_outline (command : string) (args : list string)
    (m : Measurement) : list Event :=
  [ENow (started m); EStart command args (inl (child m));
   ESince (started m) (elapsed m);
   EKill (Process (child m)); EWait (Process (child m))].

(** The outline of one turn of the loops of [benchmark]: the measurement,
    its duration printed, the pause. *)
Definition run_outline (c : Color) (command : string) (args : list string)
    (pause : Duration) (m : Measurement) : list Event :=
  measure_outline command args m
    ++ [EPrint c "  - %s" [ArgDuration (elapsed m)]; ESleep pause].

(** The RunSet recorded from the counted measurements. *)
Definition RunSet (ms : list Measurement) : Float64Data :=
  map (fun m => float64_of_int64 (elapsed m)) ms.

(** ** Vocabulary for the resources of a run *)

(** The connections a history opens, and the ones it closes. *)
Definition conns_opened (l : list Event) : list Conn :=
  flat_map (fun e => match e with EDial _ _ (inl c) => [c] | _ => [] end) l.

Definition conns_closed (l : list Event) : list Conn :=
  flat_map (fun e => match e with EConnClose c => [c] | _ => [] end) l.

(** The bodies of the responses a history receives with status 200, and
    with another status. *)
Definition ready_bodies (l : list Event) : list nat :=
  flat_map (fun e => match e with
                     | EGet _ (inl r) => if StatusCode r =? 200 then [Body r] else []
                     | _ => []
                     end) l.

Definition other_bodies (l : list Event) : list nat :=
  flat_map (fun e => match e with
                     | EGet _ (inl r) => if StatusCode r =? 200 then [] else [Body r]
                     | _ => []
                     end) l.

(** The bodies a history reads to their end, and the ones it closes. *)
Definition bodies_read (l : list Event) : list nat :=
  flat_map (fun e => match e with EReadAll b => [b] | _ => [] end) l.

Definition bodies_closed (l : list Event) : list nat :=
  flat_map (fun e => match e with EBodyClose b => [b] | _ => [] end) l.

(** The children a history kills. *)
Definition children_killed (l : list Event) : list nat :=
  flat_map (fun e => match e with EKill p => [p] | _ => [] end) l.

(** The interactions of the two kinds of check. *)
Definition tcp_traffic (e : Event) : bool :=
  match e with
  | EDial _ _ _ | EConnClose _ => true
  | _ => false
  end.

Definition http_traffic (e : Event) : bool :=
  match e with
  | EGet _ _ | EReadAll _ | EBodyClose _ => true
  | _ => false
  end.

(** A finite value whose whole part fits an [int64]. *)
Definition fits_int64 (q : Q) : Prop :=
  (inject_Z minInt64 - 1 < q < inject_Z maxInt64 + 1)%Q.

(** A clock that never goes backwards. *)
Definition monotone_clock (E : Env) : Prop :=
  forall i j, (i <= j)%nat -> clock E i <= clock E j.

(** A world in which the child starts and the server never answers. *)
Definition silent_world : Env := {|
  clock := fun k => Z.of_nat k * 1000000;
  start_process := fun k _ _ => inl {| Process := k |};
  net_dial := fun _ _ _ => inr "connection refused";
  http_get := fun k _ => inl {| StatusCode := 503; Body := k |}
|}.

(** A world in which no process can be started. *)
Definition barren_world : Env := {|
  clock := fun k => Z.of_nat k * 1000000;
  start_process := fun _ _ _ => inr "executable file not found in $PATH";
  net_dial := fun _ _ _ => inr "connection refused";
  http_get := fun _ _ => inr "connection refused"
|}.

(** * Properties *)

(** ** Running the monad *)

Lemma bind_done {A B} (c : M A) (k : A -> M B) h a h' :
  c h = (Done a, h') -> bind c k h = k a h'.
Proof. intros Hc. unfold bind. now rewrite Hc. Qed.

Lemma bind_fatal {A B} (c : M A) (k : A -> M B) h msg h' :
  c h = (Fatal msg, h') -> bind c k h = (Fatal msg, h').
Proof. intros Hc. unfold bind. now rewrite Hc. Qed.

Lemma emit_run e h : emit e h = (Done tt, h ++ [e]).
Proof. reflexivity. Qed.

Lemma color_Print_run c format args h :
  color_Print c format args h = (Done tt, h ++ [EPrint c format args]).
Proof. reflexivity. Qed.

Lemma length_snoc {A} (l : list A) (x : A) :
  List.length (l ++ [x]) = S (List.length l).
Proof. rewrite length_app. simpl. lia. Qed.

(** ** The probers *)

Section ProberFacts.

Variable E : Env.

Lemma tcp_run target h :
  tryConnectingWithTCP E target h =
  match net_dial E (List.length h) "tcp" target with
  | inl conn =>
      (Done (true, Some (conn_Close conn)),
       h ++ [EDial "tcp" target (inl conn)])
  | inr err => (Done (false, None), h ++ [EDial "tcp" target (inr err)])
  end.
Proof.
  unfold tryConnectingWithTCP, net_Dial, bind, position, emit, ret.
  destruct (net_dial E (List.length h) "tcp" target); reflexivity.
Qed.

Lemma http_run target h :
  tryConnectingWithHTTPGet E target h =
  match http_get E (List.length h) target with
  | inl resp =>
      if StatusCode resp =? 200
      then (Done (true, Some (Body_Close resp)),
            h ++ [EGet target (inl resp)] ++ [EReadAll (Body resp)])
      else (Done (false, None), h ++ [EGet target (inl resp)])
  | inr err => (Done (false, None), h ++ [EGet target (inr err)])
  end.
Proof.
  unfold tryConnectingWithHTTPGet, http_Get, ioutil_ReadAll, bind, position,
    emit, ret.
  destruct (http_get E (List.length h) target) as [resp | err]; [ | reflexivity].
  destruct (StatusCode resp =? 200); [ | reflexivity].
  now rewrite <- app_assoc.
Qed.

End ProberFacts.

Section MeasureFacts.

Variable E : Env.

Lemma prober_not_ready mode target h :
  answers E mode target (List.length h) = false ->
  prober E mode target h =
  (Done (false, None), h ++ [check_event E mode target (List.length h)]).
Proof.
  unfold answers, prober, check_event.
  destruct (String.eqb mode "tcp-connect").
  - rewrite tcp_run.
    destruct (net_dial E (List.length h) "tcp" target); [discriminate | reflexivity].
  - rewrite http_run.
    destruct (http_get E (List.length h) target) as [resp | err]; [ | reflexivity].
    intros ->. reflexivity.
Qed.

Lemma prober_ready mode target h :
  answers E mode target (List.length h) = true ->
  exists release : M unit,
    prober E mode target h =
    (Done (true, Some release),
     h ++ [check_event E mode target (List.length h)]
       ++ drained E mode target (List.length h))
    /\ forall h', release h' = (Done tt, h' ++ released E mode target (List.length h)).
Proof.
  unfold answers, prober, check_event, drained, released.
  destruct (String.eqb mode "tcp-connect").
  - rewrite tcp_run.
    destruct (net_dial E (List.length h) "tcp" target) as [conn | err];
      [ | discriminate].
    intros _. exists (conn_Close conn). split; reflexivity.
  - rewrite http_run.
    destruct (http_get E (List.length h) target) as [resp | err];
      [ | discriminate].
    intros ->. exists (Body_Close resp). split; reflexivity.
Qed.

(** One more turn of the loop when the check is not answered. *)
Lemma poll_not_ready fuel mode target start cmd h :
  answers E mode target (List.length h) = false ->
  poll E (S fuel) (prober E mode) target start cmd h =
  poll E fuel (prober E mode) target start cmd
    (h ++ [check_event E mode target (List.length h)]).
Proof.
  intros Hk. simpl.
  erewrite bind_done by (apply prober_not_ready; exact Hk).
  reflexivity.
Qed.

(** The end of the loop when the check is answered. *)
Lemma poll_ready fuel mode target start cmd h :
  answers E mode target (List.length h) = true ->
  let k := List.length h in
  let d := saturate (clock E (k + 1 + List.length (drained E mode target k)) - start) in
  poll E (S fuel) (prober E mode) target start cmd h =
  (Done d,
   h ++ [check_event E mode target k] ++ drained E mode target k
     ++ [ESince start d] ++ released E mode target k
     ++ [EKill (Process cmd); EWait (Process cmd)]).
Proof.
  intros Hk k d.
  destruct (prober_ready mode target h Hk) as (release & Hrun & Hrel).
  simpl. erewrite bind_done by exact Hrun.
  unfold time_Since, Process_Kill, Process_Wait, call, bind, position, emit, ret.
  rewrite Hrel.
  assert (Hlen : List.length
                   (h ++ [check_event E mode target (List.length h)]
                      ++ drained E mode target (List.length h))
                 = (k + 1 + List.length (drained E mode target k))%nat).
  { rewrite !length_app. simpl. unfold k. lia. }
  rewrite Hlen. fold d.
  repeat rewrite <- app_assoc. reflexivity.
Qed.

(** The loop of [measure] when the first [n] checks are not answered and
    the next one is. *)
Lemma poll_run mode target start cmd n :
  forall fuel h,
    (n < fuel)%nat ->
    (forall i, (i < n)%nat -> answers E mode target (List.length h + i) = false) ->
    answers E mode target (List.length h + n) = true ->
    let k := (List.length h + n)%nat in
    let d := saturate (clock E (k + 1 + List.length (drained E mode target k)) - start) in
    poll E fuel (prober E mode) target start cmd h =
    (Done d,
     h ++ map (check_event E mode target) (seq (List.length h) n)
       ++ [check_event E mode target k] ++ drained E mode target k
       ++ [ESince start d] ++ released E mode target k
       ++ [EKill (Process cmd); EWait (Process cmd)]).
Proof.
  induction n as [ | n IH]; intros fuel h Hfuel Hfail Hok.
  - destruct fuel as [ | fuel]; [lia | ].
    rewrite Nat.add_0_r in *. simpl.
    apply poll_ready. exact Hok.
  - destruct fuel as [ | fuel]; [lia | ].
    rewrite poll_not_ready
      by (specialize (Hfail O); rewrite Nat.add_0_r in Hfail; apply Hfail; lia).
    cbv zeta.
    replace (List.length h + S n)%nat
      with (List.length (h ++ [check_event E mode target (List.length h)]) + n)%nat
      in * by (rewrite length_snoc; lia).
    rewrite IH.
    + rewrite length_snoc. simpl. rewrite <- app_assoc. reflexivity.
    + lia.
    + intros i Hi. rewrite length_snoc.
      replace (S (List.length h) + i)%nat with (List.length h + S i)%nat by lia.
      apply Hfail. lia.
    + exact Hok.
Qed.

(** The loop never gives up: as long as no check is answered it is still
    polling, whatever the number of iterations followed. *)
Lemma poll_keeps_polling mode target start cmd :
  forall fuel h,
    (forall i, (i < fuel)%nat -> answers E mode target (List.length h + i) = false) ->
    poll E fuel (prober E mode) target start cmd h =
    (Polling, h ++ map (check_event E mode target) (seq (List.length h) fuel)).
Proof.
  induction fuel as [ | fuel IH]; intros h Hfail.
  - simpl. now rewrite app_nil_r.
  - rewrite poll_not_ready
      by (specialize (Hfail O); rewrite Nat.add_0_r in Hfail; apply Hfail; lia).
    rewrite IH.
    + rewrite length_snoc. simpl. now rewrite <- app_assoc.
    + intros i Hi. rewrite length_snoc.
      replace (S (List.length h) + i)%nat with (List.length h + S i)%nat by lia.
      apply Hfail. lia.
Qed.

End MeasureFacts.

Section MeasureRuns.

Variable E : Env.

Lemma connectionFunctionFor_valid mode h :
  valid_mode mode = true ->
  connectionFunctionFor E mode h = (Done (prober E mode), h).
Proof.
  unfold valid_mode, connectionFunctionFor, prober.
  destruct (String.eqb mode "tcp-connect"); [reflexivity | ].
  simpl. intros ->. reflexivity.
Qed.

Lemma connectionFunctionFor_invalid mode h :
  valid_mode mode = false ->
  connectionFunctionFor E mode h = (Fatal (String.append "Unknow mode: " mode), h).
Proof.
  unfold valid_mode, connectionFunctionFor.
  destruct (String.eqb mode "tcp-connect"); [discriminate | ].
  simpl. intros ->. reflexivity.
Qed.

(** [measure] up to its loop. *)
Lemma measure_unfold fuel mode target command args h :
  valid_mode mode = true ->
  let t0 := clock E (List.length h) in
  measure E fuel mode target command args h =
  match start_process E (S (List.length h)) command args with
  | inl cmd =>
      poll E fuel (prober E mode) target t0 cmd
        (h ++ [ENow t0; EStart command args (inl cmd)])
  | inr err => (Fatal err, h ++ [ENow t0; EStart command args (inr err)])
  end.
Proof.
  intros Hmode t0. unfold measure.
  erewrite bind_done by (apply connectionFunctionFor_valid; exact Hmode).
  unfold time_Now, boot, bind, position, emit, ret, log_Fatal.
  rewrite length_snoc. fold t0.
  destruct (start_process E (S (List.length h)) command args);
    rewrite <- app_assoc; reflexivity.
Qed.

Lemma measure_invalid fuel mode target command args h :
  valid_mode mode = false ->
  measure E fuel mode target command args h =
  (Fatal (String.append "Unknow mode: " mode), h).
Proof.
  intros Hmode. unfold measure.
  erewrite bind_fatal by (apply connectionFunctionFor_invalid; exact Hmode).
  reflexivity.
Qed.

(** One whole measurement: the child starts, [n] checks are not answered,
    the next one is. *)
Lemma measure_run fuel mode target command args h n cmd :
  valid_mode mode = true ->
  start_process E (S (List.length h)) command args = inl cmd ->
  (forall i, (i < n)%nat ->
     answers E mode target (List.length h + 2 + i) = false) ->
  answers E mode target (List.length h + 2 + n) = true ->
  (n < fuel)%nat ->
  let t0 := clock E (List.length h) in
  let k := (List.length h + 2 + n)%nat in
  let d := saturate (clock E (k + 1 + List.length (drained E mode target k)) - t0) in
  measure E fuel mode target command args h =
  (Done d,
   h ++ [ENow t0; EStart command args (inl cmd)]
     ++ map (check_event E mode target) (seq (List.length h + 2) n)
     ++ [check_event E mode target k] ++ drained E mode target k
     ++ [ESince t0 d] ++ released E mode target k
     ++ [EKill (Process cmd); EWait (Process cmd)]).
Proof.
  intros Hmode Hboot Hfail Hok Hfuel t0 k d.
  rewrite measure_unfold by exact Hmode. rewrite Hboot. fold t0.
  assert (Hlen : List.length (h ++ [ENow t0; EStart command args (inl cmd)])
                 = (List.length h + 2)%nat)
    by (rewrite length_app; reflexivity).
  rewrite (poll_run E mode target t0 cmd n); rewrite ?Hlen; try assumption.
  fold k. fold d. now rewrite <- app_assoc.
Qed.

End MeasureRuns.

(** ** Claims about [measure] and the probers *)

(** C1: for a mode among tcp-connect and http-get, [measure] reads the start
    timestamp, then launches the child, then (the child having started)
    polls the check of the mode; the checks follow one another with no
    pause in between, and their number is not capped: whatever the number
    [n] of unanswered checks, the loop goes on (it is still polling after
    [fuel <= n] iterations) and on the first answered check it takes the
    time elapsed since the start, then runs the release action of the
    prober, then kills the child and waits for it, and returns exactly that
    elapsed duration. *)
Theorem measure_first_success (E : Env) (fuel : nat)
    (mode target command : string) (args : list string) (h : list Event)
    (n : nat) (cmd : Cmd) :
  mode = "tcp-connect" \/ mode = "http-get" ->
  start_process E (S (List.length h)) command args = inl cmd ->
  (forall i, (i < n)%nat ->
     answers E mode target (List.length h + 2 + i) = false) ->
  answers E mode target (List.length h + 2 + n) = true ->
  let t0 := clock E (List.length h) in
  let k := (List.length h + 2 + n)%nat in
  let d := saturate (clock E (k + 1 + List.length (drained E mode target k)) - t0) in
  ((n < fuel)%nat ->
   measure E fuel mode target command args h =
   (Done d,
    h ++ [ENow t0; EStart command args (inl cmd)]
      ++ map (check_event E mode target) (seq (List.length h + 2) n)
      ++ [check_event E mode target k] ++ drained E mode target k
      ++ [ESince t0 d] ++ released E mode target k
      ++ [EKill (Process cmd); EWait (Process cmd)]))
  /\ ((fuel <= n)%nat ->
      measure E fuel mode target command args h =
      (Polling,
       h ++ [ENow t0; EStart command args (inl cmd)]
         ++ map (check_event E mode target) (seq (List.length h + 2) fuel))).
Proof.
  intros Hmode Hboot Hfail Hok t0 k d.
  assert (Hvalid : valid_mode mode = true)
    by (destruct Hmode as [-> | ->]; reflexivity).
  split; intros Hfuel.
  - apply measure_run; assumption.
  - rewrite measure_unfold by exact Hvalid. rewrite Hboot. fold t0.
    assert (Hlen : List.length (h ++ [ENow t0; EStart command args (inl cmd)])
                   = (List.length h + 2)%nat)
      by (rewrite length_app; reflexivity).
    rewrite poll_keeps_polling.
    + rewrite Hlen. now rewrite <- app_assoc.
    + intros i Hi. rewrite Hlen. apply Hfail. lia.
Qed.

(** Two refused connections, then the server listens. *)
Lemma measure_first_success_witness :
  measure slow_world 10 "tcp-connect" "localhost:8080" "python" ["-m"] [] =
  (Done 5000000,
   [ENow 0; EStart "python" ["-m"] (inl {| Process := 1 |});
    EDial "tcp" "localhost:8080" (inr "connection refused");
    EDial "tcp" "localhost:8080" (inr "connection refused");
    EDial "tcp" "localhost:8080" (inl {| conn_id := 4 |});
    ESince 0 5000000; EConnClose {| conn_id := 4 |}; EKill 1; EWait 1]).
Proof.
  refine (proj1 (measure_first_success slow_world 10 "tcp-connect"
                   "localhost:8080" "python" ["-m"] [] 2 {| Process := 1 |}
                   (or_introl eq_refl) eq_refl _ eq_refl) _).
  - intros i Hi. destruct i as [ | [ | i]]; [reflexivity | reflexivity | lia].
  - lia.
Defined.

(** Two responses with status 503, then status 200: the body is read before
    the elapsed time is taken, and closed after. *)
Example measure_http_get_run :
  measure slow_world 10 "http-get" "http://localhost:8080/" "python" [] [] =
  (Done 6000000,
   [ENow 0; EStart "python" [] (inl {| Process := 1 |});
    EGet "http://localhost:8080/" (inl {| StatusCode := 503; Body := 2 |});
    EGet "http://localhost:8080/" (inl {| StatusCode := 503; Body := 3 |});
    EGet "http://localhost:8080/" (inl {| StatusCode := 200; Body := 4 |});
    EReadAll 4; ESince 0 6000000; EBodyClose 4; EKill 1; EWait 1]).
Proof. reflexivity. Qed.

(** The child that does not start: the error is fatal, after the start
    timestamp was read. *)
Lemma measure_spawn_error (E : Env) fuel mode target command args h err :
  valid_mode mode = true ->
  start_process E (S (List.length h)) command args = inr err ->
  measure E fuel mode target command args h =
  (Fatal err,
   h ++ [ENow (clock E (List.length h)); EStart command args (inr err)]).
Proof.
  intros Hmode Hboot. rewrite measure_unfold by exact Hmode.
  now rewrite Hboot.
Qed.

(** C4: the tcp-connect prober succeeds if and only if the connection opens;
    it makes that one call and reads nothing; on success its release action
    closes the connection, on failure there is none. *)
Theorem tryConnectingWithTCP_contract (E : Env) (target : string)
    (h : list Event) :
  exists status houseKeeper,
    tryConnectingWithTCP E target h =
    (Done (status, houseKeeper),
     h ++ [EDial "tcp" target (net_dial E (List.length h) "tcp" target)])
    /\ (status = true <->
        exists conn, net_dial E (List.length h) "tcp" target = inl conn)
    /\ (status = true ->
        exists conn,
          net_dial E (List.length h) "tcp" target = inl conn
          /\ houseKeeper = Some (conn_Close conn)
          /\ forall h', call houseKeeper h' = (Done tt, h' ++ [EConnClose conn]))
    /\ (status = false -> houseKeeper = None).
Proof.
  rewrite tcp_run.
  destruct (net_dial E (List.length h) "tcp" target) as [conn | err].
  - exists true, (Some (conn_Close conn)). repeat split.
    + intros _. now exists conn.
    + intros _. exists conn. repeat split.
    + discriminate.
  - exists false, None. repeat split.
    + discriminate.
    + intros [conn Hconn]. discriminate.
    + discriminate.
Qed.

(** C3: the http-get prober succeeds if and only if the request returns
    without transport error with status 200; on success it reads the body
    to its end before returning and its release action closes the body; on
    failure it returns no release action, has read nothing and has closed
    nothing, so a response with another status is left open. *)
Theorem tryConnectingWithHTTPGet_contract (E : Env) (target : string)
    (h : list Event) :
  exists status houseKeeper h',
    tryConnectingWithHTTPGet E target h = (Done (status, houseKeeper), h')
    /\ (status = true <->
        exists resp, http_get E (List.length h) target = inl resp
                     /\ StatusCode resp = 200)
    /\ (status = true ->
        exists resp,
          http_get E (List.length h) target = inl resp
          /\ h' = h ++ [EGet target (inl resp); EReadAll (Body resp)]
          /\ houseKeeper = Some (Body_Close resp)
          /\ forall h'', call houseKeeper h'' = (Done tt, h'' ++ [EBodyClose (Body resp)]))
    /\ (status = false ->
        houseKeeper = None
        /\ h' = h ++ [EGet target (http_get E (List.length h) target)]).
Proof.
  rewrite http_run.
  destruct (http_get E (List.length h) target) as [resp | err].
  - destruct (StatusCode resp =? 200) eqn:Hcode.
    + apply Z.eqb_eq in Hcode.
      exists true, (Some (Body_Close resp)),
        (h ++ [EGet target (inl resp)] ++ [EReadAll (Body resp)]).
      repeat split.
      * intros _. now exists resp.
      * intros _. exists resp. repeat split.
      * discriminate.
      * discriminate.
    + apply Z.eqb_neq in Hcode.
      exists false, None, (h ++ [EGet target (inl resp)]).
      repeat split.
      * discriminate.
      * intros (resp' & Hresp & H200). congruence.
      * discriminate.
  - exists false, None, (h ++ [EGet target (inr err)]).
    repeat split.
    + discriminate.
    + intros (resp & Hresp & _). discriminate.
    + discriminate.
Qed.

Section NoNilCall.

Variable E : Env.

Lemma poll_never_panics mode target start cmd msg :
  forall fuel h,
    fst (poll E fuel (prober E mode) target start cmd h) <> Panic msg.
Proof.
  induction fuel as [ | fuel IH]; intros h.
  - simpl. discriminate.
  - destruct (answers E mode target (List.length h)) eqn:Hk.
    + rewrite poll_ready by exact Hk. simpl. discriminate.
    + rewrite poll_not_ready by exact Hk. apply IH.
Qed.

Lemma measure_never_panics fuel mode target command args h msg :
  fst (measure E fuel mode target command args h) <> Panic msg.
Proof.
  destruct (valid_mode mode) eqn:Hmode.
  - rewrite measure_unfold by exact Hmode.
    destruct (start_process E (S (List.length h)) command args).
    + apply poll_never_panics.
    + simpl. discriminate.
  - rewrite measure_invalid by exact Hmode. simpl. discriminate.
Qed.

End NoNilCall.

(** C10: whichever prober [connectionFunctionFor] resolves to, a check that
    reports success comes with a release action that is not nil; hence the
    call of the release action in [measure], which tests nothing, never
    calls a nil function: no run of [measure] ends in a panic. *)
Theorem houseKeeper_never_nil (E : Env) :
  (forall mode cf h0 h0' target h houseKeeper h',
      connectionFunctionFor E mode h0 = (Done cf, h0') ->
      cf target h = (Done (true, houseKeeper), h') ->
      houseKeeper <> None)
  /\ (forall fuel mode target command args h msg,
      fst (measure E fuel mode target command args h) <> Panic msg).
Proof.
  split.
  - intros mode cf h0 h0' target h houseKeeper h' Hcf Hrun.
    destruct (valid_mode mode) eqn:Hmode.
    + rewrite connectionFunctionFor_valid in Hcf by exact Hmode.
      injection Hcf as <- _.
      destruct (answers E mode target (List.length h)) eqn:Hk.
      * destruct (prober_ready E mode target h Hk) as (release & Hready & _).
        rewrite Hready in Hrun. injection Hrun as <- _. discriminate.
      * rewrite prober_not_ready in Hrun by exact Hk. discriminate.
    + rewrite connectionFunctionFor_invalid in Hcf by exact Hmode.
      discriminate.
  - intros. apply measure_never_panics.
Qed.

Lemma houseKeeper_never_nil_witness :
  (forall houseKeeper h',
      tryConnectingWithHTTPGet ready_world "http://localhost:8080/" []
      = (Done (true, houseKeeper), h') ->
      houseKeeper <> None)
  /\ fst (measure slow_world 3 "http-get" "http://localhost:8080/" "python" [] [])
     <> Panic "invalid memory address or nil pointer dereference".
Proof.
  split.
  - intros houseKeeper h'.
    exact (proj1 (houseKeeper_never_nil ready_world) "http-get"
             (tryConnectingWithHTTPGet ready_world) [] []
             "http://localhost:8080/" [] houseKeeper h' eq_refl).
  - exact (proj2 (houseKeeper_never_nil slow_world) 3%nat "http-get"
             "http://localhost:8080/" "python" [] []
             "invalid memory address or nil pointer dereference").
Defined.

(** ** The benchmark driver *)

Section BenchmarkFacts.

Variable E : Env.
Context {L : Stats}.

Variables (fuel : nat) (mode target command : string) (args : list string).
Variable pause : Duration.

Hypothesis Hmode : valid_mode mode = true.
Hypothesis Hstarts : always_starts E command args.
Hypothesis Hanswers : answers_within E mode target fuel.

Lemma outline_check k : outline (check_event E mode target k) = false.
Proof.
  unfold check_event. destruct (String.eqb mode "tcp-connect"); reflexivity.
Qed.

Lemma outline_checks ks :
  filter outline (map (check_event E mode target) ks) = [].
Proof.
  induction ks as [ | k ks IH]; [reflexivity | ].
  simpl. now rewrite IH, outline_check.
Qed.

Lemma outline_drained k : filter outline (drained E mode target k) = [].
Proof.
  unfold drained. destruct (String.eqb mode "tcp-connect"); [reflexivity | ].
  destruct (http_get E k target); reflexivity.
Qed.

Lemma outline_released k : filter outline (released E mode target k) = [].
Proof.
  unfold released. destruct (String.eqb mode "tcp-connect").
  - destruct (net_dial E k "tcp" target); reflexivity.
  - destruct (http_get E k target); reflexivity.
Qed.

(** Every measurement ends, and its outline is its elapsed duration. *)
Lemma measure_total h :
  exists m tail,
    measure E fuel mode target command args h = (Done (elapsed m), h ++ tail)
    /\ filter outline tail = measure_outline command args m.
Proof.
  destruct (Hstarts (S (List.length h))) as [cmd Hcmd].
  destruct (Hanswers (List.length h + 2)%nat) as (n & Hn & Hfail & Hok).
  pose proof (measure_run E fuel mode target command args h n cmd
                Hmode Hcmd Hfail Hok Hn) as Hrun.
  cbv zeta in Hrun.
  eexists {| started := clock E (List.length h); child := cmd; elapsed := _ |}.
  eexists. split.
  - exact Hrun.
  - rewrite !filter_app, outline_checks, outline_drained, outline_released.
    simpl. now rewrite outline_check.
Qed.

(** One turn of the first loop. *)
Lemma dry_run_turn h :
  exists m tail,
    (duration <- measure E fuel mode target command args ;;
     color_Print Cyan "  - %s" [ArgDuration duration] ;;
     time_Sleep pause) h = (Done tt, h ++ tail)
    /\ filter outline tail = run_outline Cyan command args pause m.
Proof.
  destruct (measure_total h) as (m & tail & Hrun & Hout).
  exists m, (tail ++ [EPrint Cyan "  - %s" [ArgDuration (elapsed m)]; ESleep pause]).
  split.
  - erewrite bind_done by exact Hrun.
    unfold color_Print, time_Sleep, bind, emit.
    now rewrite <- !app_assoc.
  - rewrite filter_app, Hout. reflexivity.
Qed.

(** One turn of the second loop: the duration lands at index [i]. *)
Lemma counted_run_turn i durations h :
  exists m tail,
    (duration <- measure E fuel mode target command args ;;
     let durations := slice_set durations (Z.to_nat i) (float64_of_int64 duration) in
     color_Print Green "  - %s" [ArgDuration duration] ;;
     time_Sleep pause ;;
     ret durations) h
    = (Done (slice_set durations (Z.to_nat i) (float64_of_int64 (elapsed m))),
       h ++ tail)
    /\ filter outline tail = run_outline Green command args pause m.
Proof.
  destruct (measure_total h) as (m & tail & Hrun & Hout).
  exists m, (tail ++ [EPrint Green "  - %s" [ArgDuration (elapsed m)]; ESleep pause]).
  split.
  - erewrite bind_done by exact Hrun.
    unfold color_Print, time_Sleep, bind, emit, ret.
    now rewrite <- !app_assoc.
  - rewrite filter_app, Hout. reflexivity.
Qed.

Lemma slice_set_middle (prefix rest : Float64Data) (x v : float64) :
  slice_set (prefix ++ x :: rest) (List.length prefix) v = prefix ++ v :: rest.
Proof.
  induction prefix as [ | y prefix IH]; simpl; [reflexivity | ].
  now rewrite IH.
Qed.

(** The first loop: [count] measurements, none recorded. *)
Lemma dry_loop count :
  forall i h,
    exists ms tail,
      for_range count i
        (fun _ _ =>
           duration <- measure E fuel mode target command args ;;
           color_Print Cyan "  - %s" [ArgDuration duration] ;;
           time_Sleep pause) tt h = (Done tt, h ++ tail)
      /\ List.length ms = count
      /\ filter outline tail = flat_map (run_outline Cyan command args pause) ms.
Proof.
  induction count as [ | count IH]; intros i h.
  - exists [], []. simpl. unfold ret. now rewrite app_nil_r.
  - destruct (dry_run_turn h) as (m & t1 & Hturn & Hout1).
    destruct (IH (i + 1) (h ++ t1)) as (ms & t2 & Hrest & Hlen & Hout2).
    exists (m :: ms), (t1 ++ t2). split; [ | split].
    + simpl for_range. erewrite bind_done by exact Hturn.
      rewrite Hrest. now rewrite <- app_assoc.
    + simpl. now rewrite Hlen.
    + rewrite filter_app, Hout1, Hout2. reflexivity.
Qed.

(** The second loop: the slice is filled from left to right with the
    measured durations, in the order of the measurements. *)
Lemma counted_loop (rest : Float64Data) :
  forall (prefix : Float64Data) h,
    exists ms tail,
      for_range (List.length rest) (Z.of_nat (List.length prefix))
        (fun i durations =>
           duration <- measure E fuel mode target command args ;;
           let durations :=
             slice_set durations (Z.to_nat i) (float64_of_int64 duration) in
           color_Print Green "  - %s" [ArgDuration duration] ;;
           time_Sleep pause ;;
           ret durations) (prefix ++ rest) h
      = (Done (prefix ++ RunSet ms), h ++ tail)
      /\ List.length ms = List.length rest
      /\ filter outline tail = flat_map (run_outline Green command args pause) ms.
Proof.
  induction rest as [ | x rest IH]; intros prefix h.
  - exists [], []. simpl. unfold ret. now rewrite !app_nil_r.
  - destruct (counted_run_turn (Z.of_nat (List.length prefix))
                (prefix ++ x :: rest) h) as (m & t1 & Hturn & Hout1).
    destruct (IH (prefix ++ [float64_of_int64 (elapsed m)]) (h ++ t1))
      as (ms & t2 & Hrest & Hlen & Hout2).
    exists (m :: ms), (t1 ++ t2). split; [ | split].
    + cbn [for_range List.length]. erewrite bind_done by exact Hturn.
      rewrite Nat2Z.id, slice_set_middle.
      rewrite length_snoc, Nat2Z.inj_succ in Hrest. unfold Z.succ in Hrest.
      rewrite <- app_assoc in Hrest. simpl in Hrest.
      rewrite Hrest. simpl. now rewrite <- !app_assoc.
    + simpl. now rewrite Hlen.
    + rewrite filter_app, Hout1, Hout2. reflexivity.
Qed.

(** The statistics block prints, and nothing else. *)
Lemma report_run durations h :
  report durations h = (Done tt, h ++ statistics_block durations).
Proof.
  unfold statistics_block, report, report_percentiles, report_percentile,
    percentiles, color_Print, bind, emit, ret.
  simpl. now rewrite <- !app_assoc.
Qed.

Lemma statistics_block_summary durations :
  forallb summary_line (statistics_block durations) = true.
Proof. reflexivity. Qed.

(** A whole benchmark, in a world where every measurement ends. *)
Lemma benchmark_run dryRuns runs h :
  0 <= runs ->
  exists dry counted pre,
    benchmark E fuel mode dryRuns runs pause target command args h
    = (Done tt, h ++ pre ++ statistics_block (RunSet counted))
    /\ List.length dry = Z.to_nat dryRuns
    /\ List.length counted = Z.to_nat runs
    /\ filter outline pre
       = [EPrint Cyan "Dry runs" []]
           ++ flat_map (run_outline Cyan command args pause) dry
           ++ [EPrint Green "Runs" []]
           ++ flat_map (run_outline Green command args pause) counted.
Proof.
  intros Hruns. unfold benchmark, dry_runs, counted_runs.
  destruct (dry_loop (Z.to_nat dryRuns) 0 (h ++ [EPrint Cyan "Dry runs" []]))
    as (dry & t1 & Hdry & Hlen1 & Hout1).
  destruct (counted_loop (repeat (Finite 0) (Z.to_nat runs)) []
              (((h ++ [EPrint Cyan "Dry runs" []]) ++ t1) ++ [EPrint Green "Runs" []]))
    as (counted & t2 & Hcounted & Hlen2 & Hout2).
  rewrite repeat_length in Hcounted, Hlen2.
  exists dry, counted,
    ([EPrint Cyan "Dry runs" []] ++ t1 ++ [EPrint Green "Runs" []] ++ t2).
  split; [ | split; [exact Hlen1 | split; [exact Hlen2 | ] ] ].
  - erewrite bind_done by apply color_Print_run.
    erewrite bind_done by exact Hdry.
    apply Z.ltb_ge in Hruns. rewrite Hruns.
    erewrite bind_done by reflexivity.
    erewrite bind_done by apply color_Print_run.
    erewrite bind_done by exact Hcounted.
    rewrite report_run. cbn [app]. now rewrite <- !app_assoc.
  - rewrite !filter_app, Hout1, Hout2. reflexivity.
Qed.

End BenchmarkFacts.

Lemma valid_mode_true mode :
  mode = "tcp-connect" \/ mode = "http-get" -> valid_mode mode = true.
Proof. intros [-> | ->]; reflexivity. Qed.

Lemma valid_mode_false mode :
  mode <> "tcp-connect" /\ mode <> "http-get" -> valid_mode mode = false.
Proof.
  intros [Htcp Hhttp]. unfold valid_mode.
  apply String.eqb_neq in Htcp, Hhttp. now rewrite Htcp, Hhttp.
Qed.

(** C2: for [dryRuns >= 0] and [runs >= 0], [benchmark] first makes exactly
    [dryRuns] measurements whose durations are printed and recorded nowhere,
    then exactly [runs] measurements whose durations are printed and stored
    in the RunSet in the order they were made, so the RunSet has [runs]
    entries; it sleeps [pauseBetweenRuns] after every measurement, the last
    dry run included; the statistics block comes last: the seventeen lines
    of main.go 114 to 134, each printing what the statistics function
    returns on that RunSet.  (Each measurement is the start timestamp, one child started, the elapsed
    duration, the child killed and waited for; the world is one in which
    every measurement ends.) *)
Theorem benchmark_runs_in_order (E : Env) (L : Stats) (fuel : nat)
    (mode target command : string) (args : list string)
    (pauseBetweenRuns : Duration) (dryRuns runs : Z) (h : list Event) :
  mode = "tcp-connect" \/ mode = "http-get" ->
  always_starts E command args ->
  answers_within E mode target fuel ->
  0 <= dryRuns ->
  0 <= runs ->
  exists dry counted pre,
    benchmark (L := L) E fuel mode dryRuns runs pauseBetweenRuns target command args h
    = (Done tt, h ++ pre ++ statistics_block (RunSet counted))
    /\ Z.of_nat (List.length dry) = dryRuns
    /\ Z.of_nat (List.length counted) = runs
    /\ Z.of_nat (List.length (RunSet counted)) = runs
    /\ filter outline pre
       = [EPrint Cyan "Dry runs" []]
           ++ flat_map (run_outline Cyan command args pauseBetweenRuns) dry
           ++ [EPrint Green "Runs" []]
           ++ flat_map (run_outline Green command args pauseBetweenRuns) counted.
Proof.
  intros Hmode Hstarts Hanswers Hdry Hruns.
  destruct (benchmark_run E fuel mode target command args pauseBetweenRuns
              (valid_mode_true mode Hmode) Hstarts Hanswers dryRuns runs h Hruns)
    as (dry & counted & pre & Hrun & Hlen1 & Hlen2 & Hout).
  exists dry, counted, pre.
  assert (Hcounted : Z.of_nat (List.length counted) = runs) by lia.
  split; [exact Hrun | ].
  split; [lia | ].
  split; [exact Hcounted | ].
  split; [unfold RunSet; rewrite length_map; exact Hcounted | exact Hout].
Qed.

(** One dry run and two counted runs against a server that is ready. *)
Lemma benchmark_runs_in_order_witness :
  exists dry counted pre,
    benchmark ready_world 1 "http-get" 1 2 (10 * Second)
      "http://localhost:8080/" "python" [] []
    = (Done tt, [] ++ pre ++ statistics_block (RunSet counted))
    /\ Z.of_nat (List.length dry) = 1
    /\ Z.of_nat (List.length counted) = 2
    /\ Z.of_nat (List.length (RunSet counted)) = 2
    /\ filter outline pre
       = [EPrint Cyan "Dry runs" []]
           ++ flat_map (run_outline Cyan "python" [] (10 * Second)) dry
           ++ [EPrint Green "Runs" []]
           ++ flat_map (run_outline Green "python" [] (10 * Second)) counted.
Proof.
  apply (benchmark_runs_in_order ready_world spec_stats 1 "http-get"
           "http://localhost:8080/" "python" [] (10 * Second) 1 2 []).
  - right. reflexivity.
  - intros k. eexists. reflexivity.
  - intros k. exists O. split; [lia | split; [intros i Hi; lia | reflexivity] ].
  - lia.
  - lia.
Defined.

Lemma summary_line_outline e : summary_line e = true -> outline e = true.
Proof. destruct e; simpl; try discriminate. reflexivity. Qed.

Lemma existsb_summary_outline l :
  existsb summary_line l = existsb summary_line (filter outline l).
Proof.
  induction l as [ | e l IH]; [reflexivity | ].
  simpl. destruct (outline e) eqn:He; simpl; rewrite IH; [reflexivity | ].
  destruct (summary_line e) eqn:Hs; [ | reflexivity].
  apply summary_line_outline in Hs. congruence.
Qed.

Lemma no_summary_in_runs c command args pause ms :
  c <> Yellow ->
  existsb summary_line (flat_map (run_outline c command args pause) ms) = false.
Proof.
  intros Hc. induction ms as [ | m ms IH]; [reflexivity | ].
  simpl. rewrite IH. destruct c; [reflexivity | reflexivity | congruence].
Qed.

(** C6, as the code has it: the statistics block is computed once, after
    all the counted runs, over the RunSet of [runs] entries, and it is
    computed whatever [runs] is: with [runs = 0] the statistics functions
    are applied to the empty RunSet and what they return is printed, line
    by line, after conversion by [float64ToDuration]. *)
Theorem summary_always_reported (E : Env) (L : Stats) (fuel : nat)
    (mode target command : string) (args : list string)
    (pauseBetweenRuns : Duration) (dryRuns runs : Z) (h : list Event) :
  mode = "tcp-connect" \/ mode = "http-get" ->
  always_starts E command args ->
  answers_within E mode target fuel ->
  0 <= runs ->
  exists counted pre,
    benchmark (L := L) E fuel mode dryRuns runs pauseBetweenRuns target command args h
    = (Done tt, h ++ pre ++ statistics_block (RunSet counted))
    /\ Z.of_nat (List.length (RunSet counted)) = runs
    /\ (runs = 0 ->
        RunSet counted = []
        /\ statistics_block (L := L) (RunSet counted) =
      [EPrint Yellow "Min: %s"
         [ArgDuration (float64ToDuration (fst (stats_Min [])))];
       EPrint Yellow "Max: %s"
         [ArgDuration (float64ToDuration (fst (stats_Max [])))];
       EPrint Yellow "Median: %s (std dev %s)"
         [ArgDuration (float64ToDuration (fst (stats_Median [])));
          ArgDuration (float64ToDuration (fst (stats_StandardDeviation [])))];
       EPrint Yellow "Ouliers:" [];
       EPrint Yellow "  - mild: %s"
         [ArgDurations
            (float64DataToDurations (Mild (fst (stats_QuartileOutliers []))))];
       EPrint Yellow "  - extreme: %s"
         [ArgDurations
            (float64DataToDurations (Extreme (fst (stats_QuartileOutliers []))))];
       EPrint Yellow "Percentiles:" []]
      ++ map (fun p =>
                EPrint Yellow "  - %f%%: %s"
                  [ArgFloat (Finite p);
                   ArgDuration
                     (float64ToDuration (fst (stats_Percentile [] (Finite p))))])
           percentile_values)
    /\ existsb summary_line pre = false
    /\ forallb summary_line (statistics_block (RunSet counted)) = true
    /\ List.length (statistics_block (RunSet counted)) = 17%nat.
Proof.
  intros Hmode Hstarts Hanswers Hruns.
  destruct (benchmark_run E fuel mode target command args pauseBetweenRuns
              (valid_mode_true mode Hmode) Hstarts Hanswers dryRuns runs h Hruns)
    as (dry & counted & pre & Hrun & Hlen1 & Hlen2 & Hout).
  exists counted, pre.
  assert (Hcounted : Z.of_nat (List.length counted) = runs) by lia.
  assert (Hlen : Z.of_nat (List.length (RunSet counted)) = runs)
    by (unfold RunSet; rewrite length_map; exact Hcounted).
  split; [exact Hrun | split; [exact Hlen | split; [ | split; [ | split] ] ] ].
  - intros ->. destruct (RunSet counted); [ | discriminate].
    split; reflexivity.
  - rewrite existsb_summary_outline, Hout.
    rewrite !existsb_app, !no_summary_in_runs by discriminate. reflexivity.
  - apply statistics_block_summary.
  - reflexivity.
Qed.

(** No run at all: the statistics block is printed over the empty RunSet. *)
Lemma summary_always_reported_witness :
  exists counted pre,
    benchmark ready_world 1 "http-get" 0 0 (10 * Second)
      "http://localhost:8080/" "python" [] []
    = (Done tt, [] ++ pre ++ statistics_block (RunSet counted))
    /\ Z.of_nat (List.length (RunSet counted)) = 0
    /\ (0 = 0 ->
        RunSet counted = []
        /\ statistics_block (RunSet counted) =
      [EPrint Yellow "Min: %s"
         [ArgDuration (float64ToDuration (fst (stats_Min [])))];
       EPrint Yellow "Max: %s"
         [ArgDuration (float64ToDuration (fst (stats_Max [])))];
       EPrint Yellow "Median: %s (std dev %s)"
         [ArgDuration (float64ToDuration (fst (stats_Median [])));
          ArgDuration (float64ToDuration (fst (stats_StandardDeviation [])))];
       EPrint Yellow "Ouliers:" [];
       EPrint Yellow "  - mild: %s"
         [ArgDurations
            (float64DataToDurations (Mild (fst (stats_QuartileOutliers []))))];
       EPrint Yellow "  - extreme: %s"
         [ArgDurations
            (float64DataToDurations (Extreme (fst (stats_QuartileOutliers []))))];
       EPrint Yellow "Percentiles:" []]
      ++ map (fun p =>
                EPrint Yellow "  - %f%%: %s"
                  [ArgFloat (Finite p);
                   ArgDuration
                     (float64ToDuration (fst (stats_Percentile [] (Finite p))))])
           percentile_values)
    /\ existsb summary_line pre = false
    /\ forallb summary_line (statistics_block (RunSet counted)) = true
    /\ List.length (statistics_block (RunSet counted)) = 17%nat.
Proof.
  apply (summary_always_reported ready_world spec_stats 1 "http-get"
           "http://localhost:8080/" "python" [] (10 * Second) 0 0 []).
  - right. reflexivity.
  - intros k. eexists. reflexivity.
  - intros k. exists O. split; [lia | split; [intros i Hi; lia | reflexivity] ].
  - lia.
Defined.

(** C6, as the claim states it, fails: with [runs = 0] (and no dry run) the
    benchmark ends normally and its output has lines of the statistics
    block, so it is not the case that no summary statistics are produced. *)
Lemma summary_reported_without_runs :
  let run := benchmark ready_world 1 "http-get" 0 0 (10 * Second)
               "http://localhost:8080/" "python" [] [] in
  fst run = Done tt
  /\ ~ (forall e, In e (snd run) -> summary_line e = false).
Proof.
  split; [reflexivity | ].
  intros Hnone.
  specialize (Hnone (EPrint Yellow "Min: %s" [ArgDuration minInt64])).
  assert (Hin : In (EPrint Yellow "Min: %s" [ArgDuration minInt64])
                  (snd (benchmark ready_world 1 "http-get" 0 0 (10 * Second)
                          "http://localhost:8080/" "python" [] [])))
    by (vm_compute; right; right; left; reflexivity).
  apply Hnone in Hin. discriminate.
Qed.

(** ** Configuration errors *)

Section Configuration.

Variable E : Env.
Context {L : Stats}.

Lemma bind_panic {A B} (c : M A) (k : A -> M B) h msg h' :
  c h = (Panic msg, h') -> bind c k h = (Panic msg, h').
Proof. intros Hc. unfold bind. now rewrite Hc. Qed.

Lemma no_executable executable :
  (String.length executable =? 0)%nat = true <-> executable = "".
Proof.
  destruct executable; simpl; split; intros H; try reflexivity; discriminate.
Qed.

(** A loop whose first turn exits takes the exit. *)
Lemma for_range_fatal {S : Type} count i (body : Z -> S -> M S) s h msg h' :
  body i s h = (Fatal msg, h') ->
  for_range (Datatypes.S count) i body s h = (Fatal msg, h').
Proof. intros Hbody. simpl. now apply bind_fatal. Qed.

(** [benchmark] on a mode that [connectionFunctionFor] does not know: the
    mode is looked at when the first measurement starts, and not before. *)
Lemma benchmark_invalid_mode fuel mode dryRuns runs pause target command args h :
  valid_mode mode = false ->
  benchmark E fuel mode dryRuns runs pause target command args h =
  if 1 <=? dryRuns
  then (Fatal (String.append "Unknow mode: " mode),
        h ++ [EPrint Cyan "Dry runs" []])
  else if runs <? 0
  then (Panic "makeslice: len out of range", h ++ [EPrint Cyan "Dry runs" []])
  else if 1 <=? runs
  then (Fatal (String.append "Unknow mode: " mode),
        h ++ [EPrint Cyan "Dry runs" []; EPrint Green "Runs" []])
  else (Done tt,
        h ++ [EPrint Cyan "Dry runs" []; EPrint Green "Runs" []]
          ++ statistics_block []).
Proof.
  intros Hmode. unfold benchmark, dry_runs, counted_runs.
  erewrite bind_done by apply color_Print_run.
  destruct (1 <=? dryRuns) eqn:Hdry.
  - apply Z.leb_le in Hdry.
    destruct (Z.to_nat dryRuns) as [ | count] eqn:Hcount; [lia | ].
    apply bind_fatal. apply for_range_fatal.
    apply bind_fatal. apply measure_invalid. exact Hmode.
  - apply Z.leb_gt in Hdry.
    replace (Z.to_nat dryRuns) with O by lia.
    erewrite bind_done by reflexivity.
    destruct (runs <? 0) eqn:Hneg.
    + apply bind_panic. reflexivity.
    + apply Z.ltb_ge in Hneg.
      erewrite bind_done by reflexivity.
      erewrite bind_done by apply color_Print_run.
      destruct (1 <=? runs) eqn:Hruns.
      * apply Z.leb_le in Hruns.
        destruct (Z.to_nat runs) as [ | count] eqn:Hcount; [lia | ].
        replace (h ++ [EPrint Cyan "Dry runs" []; EPrint Green "Runs" []])
          with ((h ++ [EPrint Cyan "Dry runs" []]) ++ [EPrint Green "Runs" []])
          by now rewrite <- app_assoc.
        apply bind_fatal. apply for_range_fatal.
        apply bind_fatal. apply measure_invalid. exact Hmode.
      * apply Z.leb_gt in Hruns.
        replace (Z.to_nat runs) with O by lia.
        erewrite bind_done by reflexivity.
        rewrite report_run. now rewrite <- !app_assoc.
Qed.

End Configuration.

(** C9, as the code has it: an empty executable is fatal at once, before
    anything else happens; a mode other than tcp-connect and http-get is fatal
    when the first measurement starts, so whenever at least one dry run or
    one counted run is requested, and it is not looked at otherwise; in
    every case nothing but printed lines precedes the end of the run: no
    start timestamp is read and no child process is started. *)
Theorem configuration_errors (E : Env) (L : Stats) (fuel : nat) (mode : string)
    (dryRuns runs pauseDuration : Z) (target executable : string)
    (args : list string) (h : list Event) :
  executable = "" \/ (mode <> "tcp-connect" /\ mode <> "http-get") ->
  let run := action (L := L) E fuel mode dryRuns runs pauseDuration target
               executable args h in
  (exists pre, snd run = h ++ pre /\ forallb printed pre = true)
  /\ (executable = "" -> run = (Fatal "An executable must be specified", h))
  /\ (executable <> "" -> 1 <= dryRuns \/ 1 <= runs ->
      fst run = Fatal (String.append "Unknow mode: " mode)).
Proof.
  intros Hconf run. unfold run, action.
  destruct (String.length executable =? 0)%nat eqn:Hexe.
  - apply no_executable in Hexe.
    split; [exists []; now rewrite app_nil_r | split; [reflexivity | congruence] ].
  - assert (Hexe' : executable <> "")
      by (intros Heq; apply no_executable in Heq; congruence).
    destruct Hconf as [Hempty | Hmode]; [congruence | ].
    rewrite benchmark_invalid_mode by (apply valid_mode_false; exact Hmode).
    split; [ | split; [congruence | ] ].
    + destruct (1 <=? dryRuns); [eexists; split; reflexivity | ].
      destruct (runs <? 0); [eexists; split; reflexivity | ].
      destruct (1 <=? runs); eexists; split; reflexivity.
    + intros _ Hsome.
      destruct (1 <=? dryRuns) eqn:Hdry; [reflexivity | ].
      apply Z.leb_gt in Hdry.
      destruct (runs <? 0) eqn:Hneg; [apply Z.ltb_lt in Hneg; lia | ].
      destruct (1 <=? runs) eqn:Hruns; [reflexivity | ].
      apply Z.leb_gt in Hruns. lia.
Qed.

(** The default flags with a mode the tool does not know. *)
Lemma configuration_errors_witness :
  fst (action ready_world 1 "smtp" 2 20 10 "http://localhost:8080/" "python" [] [])
  = Fatal "Unknow mode: smtp"
  /\ action ready_world 1 "http-get" 2 20 10 "http://localhost:8080/" "" [] []
     = (Fatal "An executable must be specified", []).
Proof.
  split.
  - refine (proj2 (proj2 (configuration_errors ready_world spec_stats 1 "smtp"
                            2 20 10 "http://localhost:8080/" "python" [] []
                            (or_intror (conj _ _)))) _ (or_introl _));
      first [discriminate | lia].
  - exact (proj1 (proj2 (configuration_errors ready_world spec_stats 1
                           "http-get" 2 20 10 "http://localhost:8080/" "" [] []
                           (or_introl eq_refl))) eq_refl).
Defined.

(** C9, as the claim states it, fails: with no dry run and no counted run
    requested, a mode the tool does not know is never reported; the run ends
    normally after printing the statistics block. *)
Lemma unknown_mode_unnoticed_without_runs :
  let run := action ready_world 1 "smtp" 0 0 10 "http://localhost:8080/"
               "python" [] [] in
  "smtp" <> "tcp-connect" /\ "smtp" <> "http-get"
  /\ fst run = Done tt
  /\ forall msg, fst run <> Fatal msg.
Proof.
  cbv zeta.
  split; [discriminate | ].
  split; [discriminate | ].
  split; [reflexivity | ].
  intros msg. vm_compute. discriminate.
Qed.

(** ** The statistics *)

Section StatsFacts.

Local Open Scope Q_scope.

Lemma Qle_bool_false a b : Qle_bool a b = false -> b <= a.
Proof.
  intros H. apply Qlt_le_weak, Qnot_le_lt.
  intros Hle. apply Qle_bool_iff in Hle. congruence.
Qed.

Lemma min2_le_l a b : stats.min2 a b <= a.
Proof.
  unfold stats.min2. destruct (Qle_bool a b) eqn:H.
  - apply Qle_refl.
  - now apply Qle_bool_false.
Qed.

Lemma min2_le_r a b : stats.min2 a b <= b.
Proof.
  unfold stats.min2. destruct (Qle_bool a b) eqn:H.
  - now apply Qle_bool_iff.
  - apply Qle_refl.
Qed.

Lemma max2_ge_l a b : a <= stats.max2 a b.
Proof.
  unfold stats.max2. destruct (Qle_bool a b) eqn:H.
  - now apply Qle_bool_iff.
  - apply Qle_refl.
Qed.

Lemma max2_ge_r a b : b <= stats.max2 a b.
Proof.
  unfold stats.max2. destruct (Qle_bool a b) eqn:H.
  - apply Qle_refl.
  - now apply Qle_bool_false.
Qed.

(** The running minimum is below its start and below every element seen. *)
Lemma fold_min_le t : forall x y, In y (x :: t) -> fold_left stats.min2 t x <= y.
Proof.
  induction t as [ | z t IH]; intros x y Hin.
  - destruct Hin as [<- | []]. apply Qle_refl.
  - simpl. destruct Hin as [<- | [<- | Hin] ].
    + eapply Qle_trans; [apply IH; now left | apply min2_le_l].
    + eapply Qle_trans; [apply IH; now left | apply min2_le_r].
    + apply IH. now right.
Qed.

Lemma fold_max_ge t : forall x y, In y (x :: t) -> y <= fold_left stats.max2 t x.
Proof.
  induction t as [ | z t IH]; intros x y Hin.
  - destruct Hin as [<- | []]. apply Qle_refl.
  - simpl. destruct Hin as [<- | [<- | Hin] ].
    + eapply Qle_trans; [apply max2_ge_l | apply IH; now left].
    + eapply Qle_trans; [apply max2_ge_r | apply IH; now left].
    + apply IH. now right.
Qed.

(** The minimum and the maximum are measurements of the RunSet. *)
Lemma fold_min_in t : forall x, In (fold_left stats.min2 t x) (x :: t).
Proof.
  induction t as [ | z t IH]; intros x; [now left | ].
  simpl. specialize (IH (stats.min2 x z)).
  unfold stats.min2 in *. destruct (Qle_bool x z), IH as [<- | Hin]; auto.
Qed.

Lemma fold_max_in t : forall x, In (fold_left stats.max2 t x) (x :: t).
Proof.
  induction t as [ | z t IH]; intros x; [now left | ].
  simpl. specialize (IH (stats.max2 x z)).
  unfold stats.max2 in *. destruct (Qle_bool x z), IH as [<- | Hin]; auto.
Qed.

Lemma Min_le data y : In y data -> fst (stats.Min data) <= y.
Proof.
  destruct data as [ | x t]; [intros [] | ]. simpl. apply fold_min_le.
Qed.

Lemma Max_ge data y : In y data -> y <= fst (stats.Max data).
Proof.
  destruct data as [ | x t]; [intros [] | ]. simpl. apply fold_max_ge.
Qed.

(** Sorting keeps the measurements and their number. *)
Lemma insert_in x y l : In y (stats.insert x l) <-> y = x \/ In y l.
Proof.
  induction l as [ | z l IH]; simpl.
  - intuition congruence.
  - destruct (Qle_bool x z); simpl; [intuition congruence | ].
    rewrite IH. intuition congruence.
Qed.

Lemma sortedCopy_in y data : In y (stats.sortedCopy data) <-> In y data.
Proof.
  induction data as [ | x data IH]; simpl; [reflexivity | ].
  rewrite insert_in, IH. intuition congruence.
Qed.

Lemma insert_length x l : List.length (stats.insert x l) = S (List.length l).
Proof.
  induction l as [ | z l IH]; simpl; [reflexivity | ].
  destruct (Qle_bool x z); simpl; [reflexivity | now rewrite IH].
Qed.

Lemma sortedCopy_length data :
  List.length (stats.sortedCopy data) = List.length data.
Proof.
  induction data as [ | x data IH]; simpl; [reflexivity | ].
  rewrite insert_length. f_equal. exact IH.
Qed.

Lemma sorted_nth_in data i d :
  (i < List.length data)%nat -> In (nth i (stats.sortedCopy data) d) data.
Proof.
  intros Hi. apply sortedCopy_in, nth_In. now rewrite sortedCopy_length.
Qed.

Lemma half_lt n : (0 < n)%nat -> (n / 2 < n)%nat.
Proof. intros Hn. apply Nat.div_lt; lia. Qed.

(** The median is a measurement of the RunSet or the mean of two. *)
Lemma Median_between (data : list Q) (lo hi : Q) :
  data <> [] ->
  (forall y, In y data -> lo <= y <= hi) ->
  lo <= fst (stats.Median data) <= hi.
Proof.
  intros Hne Hall. unfold stats.Median. cbv zeta. rewrite sortedCopy_length.
  destruct (List.length data) as [ | n] eqn:Hlen.
  - destruct data; [congruence | discriminate].
  - rewrite <- Hlen.
    assert (Hhalf : (List.length data / 2 < List.length data)%nat)
      by (apply half_lt; lia).
    destruct (Nat.even (List.length data)); cbn [fst].
    + pose proof (Hall _ (sorted_nth_in data (List.length data / 2 - 1) 0
                            ltac:(lia))) as [Ha1 Ha2].
      pose proof (Hall _ (sorted_nth_in data (List.length data / 2) 0 Hhalf))
        as [Hb1 Hb2].
      set (a := nth (List.length data / 2 - 1) (stats.sortedCopy data) 0) in *.
      set (b := nth (List.length data / 2) (stats.sortedCopy data) 0) in *.
      unfold Qdiv. change (/ 2) with (1 # 2). split; lra.
    + apply Hall, sorted_nth_in, Hhalf.
Qed.

End StatsFacts.

(** The percentile of the specification on a small RunSet: the 100th is the
    maximum, the 0th the minimum, and the values in between are interpolated
    between neighbours of the sorted RunSet. *)
Example Percentile_small_RunSet :
  let data := map inject_Z [30; 10; 20; 40] in
  (fst (stats.Percentile data 100) == fst (stats.Max data)
   /\ fst (stats.Percentile data 0) == fst (stats.Min data)
   /\ fst (stats.Percentile data 50) == 25
   /\ fst (stats.Percentile data 75) == (65 # 2)
   /\ fst (stats.Median data) == 25)%Q
  /\ snd (stats.Percentile data 101%Q) = Some stats.BoundsErr
  /\ snd (stats.Percentile [] 50%Q) = Some stats.EmptyInput.
Proof. cbv zeta. repeat split. Qed.

(** On finite data the statistics of the specification are what the
    functions [benchmark] calls return. *)
Lemma finite_values_map (qs : list Q) : finite_values (map Finite qs) = Some qs.
Proof.
  induction qs as [ | q qs IH]; [reflexivity | ].
  simpl. now rewrite IH.
Qed.

Lemma spec_stats_on_finite (data : list Q) :
  data <> [] ->
  stats_Min (map Finite data) = (Finite (fst (stats.Min data)), None)
  /\ stats_Max (map Finite data) = (Finite (fst (stats.Max data)), None)
  /\ stats_Median (map Finite data) = (Finite (fst (stats.Median data)), None).
Proof.
  intros Hne. simpl. unfold on_finite. rewrite finite_values_map.
  split; [ | split].
  - destruct data as [ | x t]; [congruence | reflexivity].
  - destruct data as [ | x t]; [congruence | reflexivity].
  - unfold stats.Median. cbv zeta. rewrite sortedCopy_length.
    destruct data as [ | x t]; [congruence | ].
    cbn [List.length].
    destruct (Nat.even (S (List.length t))); reflexivity.
Qed.

(** C7: for a RunSet with at least one measurement, the minimum, the median
    and the maximum of the statistics stage are in this order:
    minimum <= median <= maximum. *)
Theorem min_median_max (data : list Q) :
  data <> [] ->
  (fst (stats.Min data) <= fst (stats.Median data) <= fst (stats.Max data))%Q.
Proof.
  intros Hne. apply Median_between; [exact Hne | ].
  intros y Hy. split; [now apply Min_le | now apply Max_ge].
Qed.

Lemma min_median_max_witness :
  let data := map inject_Z [300; 100; 400; 200] in
  (fst (stats.Min data) == 100 /\ fst (stats.Median data) == 250
   /\ fst (stats.Max data) == 400)%Q
  /\ (fst (stats.Min data) <= fst (stats.Median data) <= fst (stats.Max data))%Q.
Proof.
  split.
  - repeat split.
  - apply (min_median_max (map inject_Z [300; 100; 400; 200])).
    discriminate.
Defined.

(** With quartiles interpolated as the percentiles of the specification
    are, the RunSet of 10, 20, 30, 40 and 1000 milliseconds has quartiles 20
    and 40 milliseconds, and 1000 milliseconds is an extreme outlier. *)
Example interpolated_quartiles_flag_1000ms :
  let data := map inject_Z
                [10000000; 20000000; 30000000; 40000000; 1000000000] in
  let outliers := fst (stats.QuartileOutliers data) in
  (stats.Q1 data == 20000000)%Q
  /\ (stats.Q3 data == 40000000)%Q
  /\ stats.Mild outliers = []
  /\ stats.Extreme outliers = [inject_Z 1000000000].
Proof. cbv zeta. repeat split. Qed.

(** C5, as the implementation has it: in the RunSet of 10, 20, 30, 40 and
    1000 milliseconds the quartile method of the package gives Q1 = 15
    milliseconds (the median of 10 and 20) and Q3 = 520 milliseconds (the
    median of 40 and 1000); the interquartile range is 505 milliseconds,
    the inner fences are -742.5 and 1277.5 milliseconds, the outer ones
    -1500 and 2035 milliseconds; 1000 milliseconds lies inside the inner
    fences, and the classification has no outlier at all, mild or
    extreme. *)
Theorem no_outlier_by_halves :
  let data := map inject_Z
                [10000000; 20000000; 30000000; 40000000; 1000000000] in
  (exists q1 q3,
      halves.Quartile data = (Some q1, Some q3)
      /\ q1 == 15000000 /\ q3 == 520000000
      /\ fst (halves.fences (3 # 2) q1 q3) == - (742500000)
      /\ snd (halves.fences (3 # 2) q1 q3) == 1277500000
      /\ fst (halves.fences 3 q1 q3) == - (1500000000)
      /\ snd (halves.fences 3 q1 q3) == 2035000000
      /\ halves.outside (halves.fences (3 # 2) q1 q3) (inject_Z 1000000000) = false)%Q
  /\ stats.Mild (halves.QuartileOutliers data) = []
  /\ stats.Extreme (halves.QuartileOutliers data) = [].
Proof.
  cbv zeta. split; [ | split; reflexivity].
  eexists. eexists. split; [reflexivity | ].
  repeat split.
Qed.

(** C5, as the claim states it, fails: with the quartiles of the
    implementation, 1000 milliseconds is not among the outliers of the
    RunSet of 10, 20, 30, 40 and 1000 milliseconds, mild or extreme. *)
Lemma outlier_1000ms_not_flagged :
  let data := map inject_Z
                [10000000; 20000000; 30000000; 40000000; 1000000000] in
  ~ In (inject_Z 1000000000)
      (stats.Mild (halves.QuartileOutliers data)
         ++ stats.Extreme (halves.QuartileOutliers data)).
Proof.
  cbv zeta. vm_compute. intros H. exact H.
Qed.

(** A longer RunSet with outliers on both sides: 15 and 18 are mild
    outliers, -1000 and 100 extreme ones. *)
Example halves_outliers_example :
  let data := map inject_Z [-1000; 1; 3; 4; 4; 6; 6; 6; 6; 7; 8; 15; 18; 100] in
  stats.Mild (halves.QuartileOutliers data) = map inject_Z [15; 18]
  /\ stats.Extreme (halves.QuartileOutliers data) = map inject_Z [-1000; 100].
Proof. cbv zeta. split; reflexivity. Qed.

Section UniformRunSet.

Local Open Scope Q_scope.

Variable v : Q.

Lemma uniform_in (data : list Q) x : uniform v data -> In x data -> x == v.
Proof. intros Hall Hin. exact (proj1 (Forall_forall _ _) Hall x Hin). Qed.

Lemma uniform_sorted (data : list Q) :
  uniform v data -> uniform v (stats.sortedCopy data).
Proof.
  intros Hall. apply Forall_forall. intros x Hin.
  exact (uniform_in data x Hall (proj1 (sortedCopy_in x data) Hin)).
Qed.

Lemma uniform_nth (data : list Q) i d :
  uniform v data -> d == v -> nth i data d == v.
Proof.
  intros Hall Hd. destruct (Nat.lt_ge_cases i (List.length data)) as [Hi | Hi].
  - apply (uniform_in data); [exact Hall | now apply nth_In].
  - now rewrite nth_overflow.
Qed.

Lemma uniform_nth_in (data : list Q) i d :
  uniform v data -> (i < List.length data)%nat -> nth i data d == v.
Proof.
  intros Hall Hi. apply (uniform_in data); [exact Hall | now apply nth_In].
Qed.

Lemma uniform_Min (data : list Q) :
  data <> [] -> uniform v data -> fst (stats.Min data) == v.
Proof.
  intros Hne Hall. destruct data as [ | x t]; [congruence | ].
  apply (uniform_in (x :: t)); [exact Hall | apply fold_min_in].
Qed.

Lemma uniform_Max (data : list Q) :
  data <> [] -> uniform v data -> fst (stats.Max data) == v.
Proof.
  intros Hne Hall. destruct data as [ | x t]; [congruence | ].
  apply (uniform_in (x :: t)); [exact Hall | apply fold_max_in].
Qed.

Lemma uniform_Median (data : list Q) :
  data <> [] -> uniform v data -> fst (stats.Median data) == v.
Proof.
  intros Hne Hall.
  assert (Hbetween : v <= fst (stats.Median data) <= v).
  { apply Median_between; [exact Hne | ].
    intros y Hy. rewrite (uniform_in data y Hall Hy).
    split; apply Qle_refl. }
  apply Qle_antisym; apply Hbetween.
Qed.

Lemma uniform_sum (data : list Q) :
  uniform v data ->
  forall acc,
    fold_left Qplus data acc == acc + inject_Z (Z.of_nat (List.length data)) * v.
Proof.
  induction 1 as [ | x data Hx Hall IH]; intros acc.
  - simpl. ring.
  - cbn [fold_left List.length]. rewrite IH, Hx, Nat2Z.inj_succ.
    unfold Z.succ. rewrite inject_Z_plus. ring.
Qed.

Lemma length_nonzero (data : list Q) :
  data <> [] -> ~ inject_Z (Z.of_nat (List.length data)) == 0.
Proof.
  intros Hne H0. destruct data; [congruence | ].
  unfold Qeq in H0. simpl in H0. lia.
Qed.

Lemma uniform_Mean (data : list Q) :
  data <> [] -> uniform v data -> stats.Mean data == v.
Proof.
  intros Hne Hall. unfold stats.Mean, stats.Sum.
  rewrite (uniform_sum data Hall). field. now apply length_nonzero.
Qed.

Lemma uniform_squares (data : list Q) m :
  uniform v data -> m == v ->
  forall acc,
    fold_left (fun acc n => acc + (n - m) * (n - m)) data acc == acc.
Proof.
  intros Hall Hm. induction Hall as [ | x data Hx Hall IH]; intros acc.
  - reflexivity.
  - cbn [fold_left]. rewrite IH, Hx, Hm. ring.
Qed.

Lemma uniform_Variance (data : list Q) :
  data <> [] -> uniform v data -> stats.Variance data == 0.
Proof.
  intros Hne Hall. unfold stats.Variance. cbv zeta.
  rewrite (uniform_squares data _ Hall (uniform_Mean data Hne Hall)).
  field. now apply length_nonzero.
Qed.

Lemma Sqrt_zero q : q == 0 -> stats.Sqrt q == 0.
Proof. intros Hq. unfold stats.Sqrt. rewrite Hq. reflexivity. Qed.

Lemma uniform_StandardDeviation (data : list Q) :
  data <> [] -> uniform v data -> fst (stats.StandardDeviation data) == 0.
Proof.
  intros Hne Hall. destruct data as [ | x t]; [congruence | ].
  apply Sqrt_zero, uniform_Variance; assumption.
Qed.

End UniformRunSet.

Section UniformQuantiles.

Local Open Scope Q_scope.

Variable v : Q.

(** The rank of a percentile falls inside the sorted RunSet. *)
Lemma rank_in_range (percent : Q) (n : nat) :
  percent <= 100 ->
  (0 < n)%nat ->
  (Z.to_nat (Qfloor (percent / 100 * inject_Z (Z.of_nat (n - 1)))) < n)%nat.
Proof.
  intros Hp Hn.
  assert (Hm : 0 <= inject_Z (Z.of_nat (n - 1))).
  { change 0 with (inject_Z 0). rewrite <- Zle_Qle. lia. }
  assert (Hrank : percent / 100 * inject_Z (Z.of_nat (n - 1))
                  <= inject_Z (Z.of_nat (n - 1))).
  { unfold Qdiv. change (/ 100) with (1 # 100).
    set (m := inject_Z (Z.of_nat (n - 1))) in *. nra. }
  apply Qfloor_resp_le in Hrank. rewrite Qfloor_Z in Hrank. lia.
Qed.

Lemma uniform_Percentile (data : list Q) (percent : Q) :
  data <> [] -> uniform v data ->
  Qle_bool 0 percent && Qle_bool percent 100 = true ->
  fst (stats.Percentile data percent) == v.
Proof.
  intros Hne Hall Hp.
  assert (Hsorted := uniform_sorted v data Hall).
  assert (Hlen : (0 < List.length (stats.sortedCopy data))%nat).
  { rewrite sortedCopy_length. destruct data; [congruence | simpl; lia]. }
  unfold stats.Percentile. cbv zeta.
  destruct (stats.sortedCopy data) as [ | x c] eqn:Hc; [simpl in Hlen; lia | ].
  rewrite Hp. cbn [fst].
  apply andb_prop in Hp. destruct Hp as [_ Hp]. apply Qle_bool_iff in Hp.
  set (rank := percent / 100 * inject_Z (Z.of_nat (List.length (x :: c) - 1))).
  assert (Hlo : (Z.to_nat (Qfloor rank) < List.length (x :: c))%nat)
    by (apply rank_in_range; assumption).
  set (a := nth (Z.to_nat (Qfloor rank)) (x :: c) 0).
  assert (Ha : a == v) by (apply uniform_nth_in; assumption).
  set (b := nth (S (Z.to_nat (Qfloor rank))) (x :: c) a).
  assert (Hb : b == v) by (apply uniform_nth; assumption).
  rewrite Ha, Hb. ring.
Qed.

Lemma uniform_beyond (k : Q) (data : list Q) (x : Q) :
  data <> [] -> uniform v data -> x == v -> stats.beyond k data x = false.
Proof.
  intros Hne Hall Hx.
  assert (H1 : stats.Q1 data == v)
    by (apply uniform_Percentile; [assumption | assumption | reflexivity]).
  assert (H3 : stats.Q3 data == v)
    by (apply uniform_Percentile; [assumption | assumption | reflexivity]).
  unfold stats.beyond, stats.InterQuartileRange. cbv zeta.
  assert (Hlow : Qle_bool (stats.Q1 data - k * (stats.Q3 data - stats.Q1 data)) x = true).
  { apply Qle_bool_iff. rewrite H1, H3, Hx.
    setoid_replace (v - k * (v - v)) with v by ring. apply Qle_refl. }
  assert (Hhigh : Qle_bool x (stats.Q3 data + k * (stats.Q3 data - stats.Q1 data)) = true).
  { apply Qle_bool_iff. rewrite H1, H3, Hx.
    setoid_replace (v + k * (v - v)) with v by ring. apply Qle_refl. }
  now rewrite Hlow, Hhigh.
Qed.

Lemma filter_none {A} (f : A -> bool) (l : list A) :
  (forall x, In x l -> f x = false) -> filter f l = [].
Proof.
  induction l as [ | y l IH]; intros Hf; [reflexivity | ].
  simpl. rewrite (Hf y) by now left.
  apply IH. intros x Hx. apply Hf. now right.
Qed.

Lemma uniform_QuartileOutliers (data : list Q) :
  data <> [] -> uniform v data ->
  stats.Mild (fst (stats.QuartileOutliers data)) = []
  /\ stats.Extreme (fst (stats.QuartileOutliers data)) = [].
Proof.
  intros Hne Hall. unfold stats.QuartileOutliers.
  destruct data as [ | y t] eqn:Hdata; [congruence | ].
  rewrite <- Hdata in *. cbn [fst stats.Mild stats.Extreme].
  split; apply filter_none; intros x Hx.
  - rewrite (uniform_beyond (3 # 2) data x Hne Hall (uniform_in v data x Hall Hx)).
    reflexivity.
  - exact (uniform_beyond 3 data x Hne Hall (uniform_in v data x Hall Hx)).
Qed.

End UniformQuantiles.

(** The quartiles of the package agree on such a RunSet: with the medians
    of the halves as quartiles there is no outlier either. *)
Lemma uniform_halves_Median (v : Q) (c : list Q) (m : Q) :
  uniform v c -> halves.Median c = Some m -> (m == v)%Q.
Proof.
  intros Hall. unfold halves.Median.
  destruct (stats.Median c) as [m' [err | ] ] eqn:Hmed; [discriminate | ].
  intros [= <-].
  destruct c as [ | x t]; [discriminate | ].
  change m' with (fst (m', @None error)). rewrite <- Hmed.
  apply uniform_Median; [discriminate | exact Hall].
Qed.

Lemma uniform_part (v : Q) (l : list Q) (n : nat) :
  uniform v l -> uniform v (firstn n l) /\ uniform v (skipn n l).
Proof.
  intros Hall. rewrite <- (firstn_skipn n l) in Hall.
  unfold uniform in *. now apply Forall_app in Hall.
Qed.

Lemma uniform_no_outlier_by_halves (v : Q) (data : list Q) :
  uniform v data ->
  stats.Mild (halves.QuartileOutliers data) = []
  /\ stats.Extreme (halves.QuartileOutliers data) = [].
Proof.
  intros Hall. assert (Hsorted := uniform_sorted v data Hall).
  unfold halves.QuartileOutliers, halves.Quartile. cbv zeta.
  set (c1 := if Nat.even (List.length (stats.sortedCopy data))
             then (List.length (stats.sortedCopy data) / 2)%nat
             else ((List.length (stats.sortedCopy data) - 1) / 2)%nat).
  set (c2 := if Nat.even (List.length (stats.sortedCopy data))
             then (List.length (stats.sortedCopy data) / 2)%nat
             else (c1 + 1)%nat).
  destruct (halves.Median (firstn c1 (stats.sortedCopy data))) as [q1 | ] eqn:H1;
    [ | split; reflexivity].
  destruct (halves.Median (skipn c2 (stats.sortedCopy data))) as [q3 | ] eqn:H3;
    [ | split; reflexivity].
  apply uniform_halves_Median with (v := v) in H1;
    [ | apply uniform_part; exact Hsorted].
  apply uniform_halves_Median with (v := v) in H3;
    [ | apply uniform_part; exact Hsorted].
  assert (Hin : forall k x, In x (stats.sortedCopy data) ->
                            halves.outside (halves.fences k q1 q3) x = false).
  { intros k x Hx.
    assert (Hxv : (x == v)%Q) by exact (uniform_in v _ x Hsorted Hx).
    unfold halves.outside, halves.fences. cbn [fst snd].
    assert (Hlow : Qle_bool (q1 - k * (q3 - q1)) x = true).
    { apply Qle_bool_iff. rewrite H1, H3, Hxv.
      setoid_replace (v - k * (v - v))%Q with v by ring. apply Qle_refl. }
    assert (Hhigh : Qle_bool x (q3 + k * (q3 - q1)) = true).
    { apply Qle_bool_iff. rewrite H1, H3, Hxv.
      setoid_replace (v + k * (v - v))%Q with v by ring. apply Qle_refl. }
    now rewrite Hlow, Hhigh. }
  cbn [stats.Mild stats.Extreme].
  split; apply filter_none; intros x Hx.
  - rewrite (Hin (3 # 2)%Q x Hx). apply andb_false_r.
  - exact (Hin 3%Q x Hx).
Qed.

(** C8: when every measurement of a non-empty RunSet is the same value [v],
    the standard deviation is 0 (the variance is), the minimum, the maximum
    and the median are [v], each of the ten percentiles of the report is
    [v], and there is no outlier, neither mild nor extreme. *)
Theorem uniform_RunSet_statistics (v : Q) (data : list Q) :
  data <> [] ->
  Forall (fun x => (x == v)%Q) data ->
  (fst (stats.Min data) == v)%Q
  /\ (fst (stats.Max data) == v)%Q
  /\ (fst (stats.Median data) == v)%Q
  /\ (stats.Variance data == 0)%Q
  /\ (fst (stats.StandardDeviation data) == 0)%Q
  /\ Forall (fun p => (fst (stats.Percentile data p) == v)%Q) percentile_values
  /\ stats.Mild (fst (stats.QuartileOutliers data)) = []
  /\ stats.Extreme (fst (stats.QuartileOutliers data)) = [].
Proof.
  intros Hne Hall.
  split; [now apply uniform_Min | ].
  split; [now apply uniform_Max | ].
  split; [now apply uniform_Median | ].
  split; [now apply (uniform_Variance v) | ].
  split; [now apply (uniform_StandardDeviation v) | ].
  split; [ | now apply (uniform_QuartileOutliers v)].
  unfold percentile_values.
  repeat (constructor;
          [apply uniform_Percentile; [exact Hne | exact Hall | reflexivity] | ]).
  constructor.
Qed.

(** Five measurements of exactly 100 milliseconds. *)
Lemma uniform_RunSet_statistics_witness :
  let v := inject_Z 100000000 in
  let data := repeat v 5 in
  (fst (stats.Min data) == v)%Q
  /\ (fst (stats.Max data) == v)%Q
  /\ (fst (stats.Median data) == v)%Q
  /\ (stats.Variance data == 0)%Q
  /\ (fst (stats.StandardDeviation data) == 0)%Q
  /\ Forall (fun p => (fst (stats.Percentile data p) == v)%Q) percentile_values
  /\ stats.Mild (fst (stats.QuartileOutliers data)) = []
  /\ stats.Extreme (fst (stats.QuartileOutliers data)) = [].
Proof.
  apply (uniform_RunSet_statistics (inject_Z 100000000)
           (repeat (inject_Z 100000000) 5)).
  - discriminate.
  - repeat constructor.
Defined.

(** * Further properties of [main.go] *)

(** ** Every way a measurement can go *)

Section MeasureCases.

Variable E : Env.

(** Within [fuel] attempts from position [k], either no check is answered
    or there is a first one that is. *)
Lemma first_answer mode target fuel :
  forall k,
    (forall i, (i < fuel)%nat -> answers E mode target (k + i) = false)
    \/ exists n,
         (n < fuel)%nat
         /\ (forall i, (i < n)%nat -> answers E mode target (k + i) = false)
         /\ answers E mode target (k + n) = true.
Proof.
  induction fuel as [ | fuel IH]; intros k.
  - left. intros i Hi. lia.
  - destruct (answers E mode target k) eqn:Hk.
    + right. exists O. rewrite Nat.add_0_r.
      split; [lia | split; [intros i Hi; lia | exact Hk] ].
    + destruct (IH (S k)) as [Hnone | (n & Hn & Hfail & Hok)].
      * left. intros i Hi. destruct i as [ | i].
        -- now rewrite Nat.add_0_r.
        -- replace (k + S i)%nat with (S k + i)%nat by lia. apply Hnone. lia.
      * right. exists (S n).
        split; [lia | split].
        -- intros i Hi. destruct i as [ | i].
           ++ now rewrite Nat.add_0_r.
           ++ replace (k + S i)%nat with (S k + i)%nat by lia. apply Hfail. lia.
        -- replace (k + S n)%nat with (S k + n)%nat by lia. exact Hok.
Qed.

(** A run of [measure] on a mode it knows ends in one of three ways: the
    child does not start, no check is answered as far as the loop is
    followed, or a first check is answered. *)
Lemma measure_cases fuel mode target command args h :
  valid_mode mode = true ->
  let t0 := clock E (List.length h) in
  (exists err,
      measure E fuel mode target command args h
      = (Fatal err, h ++ [ENow t0; EStart command args (inr err)]))
  \/ (exists cmd,
         (forall i, (i < fuel)%nat ->
            answers E mode target (List.length h + 2 + i) = false)
         /\ measure E fuel mode target command args h
            = (Polling,
               h ++ [ENow t0; EStart command args (inl cmd)]
                 ++ map (check_event E mode target) (seq (List.length h + 2) fuel)))
  \/ (exists cmd n,
         (forall i, (i < n)%nat ->
            answers E mode target (List.length h + 2 + i) = false)
         /\ answers E mode target (List.length h + 2 + n) = true
         /\ let k := (List.length h + 2 + n)%nat in
            let d := saturate (clock E (k + 1 + List.length (drained E mode target k)) - t0) in
            measure E fuel mode target command args h
            = (Done d,
               h ++ [ENow t0; EStart command args (inl cmd)]
                 ++ map (check_event E mode target) (seq (List.length h + 2) n)
                 ++ [check_event E mode target k] ++ drained E mode target k
                 ++ [ESince t0 d] ++ released E mode target k
                 ++ [EKill (Process cmd); EWait (Process cmd)])).
Proof.
  intros Hmode t0.
  destruct (start_process E (S (List.length h)) command args) as [cmd | err] eqn:Hboot.
  - right.
    destruct (first_answer mode target fuel (List.length h + 2))
      as [Hnone | (n & Hn & Hfail & Hok)].
    + left. exists cmd. split; [exact Hnone | ].
      rewrite measure_unfold by exact Hmode. rewrite Hboot. fold t0.
      assert (Hlen : List.length (h ++ [ENow t0; EStart command args (inl cmd)])
                     = (List.length h + 2)%nat)
        by (rewrite length_app; reflexivity).
      rewrite poll_keeps_polling by (rewrite Hlen; exact Hnone).
      rewrite Hlen. now rewrite <- app_assoc.
    + right. exists cmd, n. split; [exact Hfail | split; [exact Hok | ] ].
      apply measure_run; assumption.
  - left. exists err. now apply measure_spawn_error.
Qed.

End MeasureCases.

(** ** The child that does not start *)

Lemma executable_given executable :
  executable <> "" -> (String.length executable =? 0)%nat = false.
Proof.
  intros Hexe. destruct (String.length executable =? 0)%nat eqn:Hlen;
    [ | reflexivity].
  apply no_executable in Hlen. congruence.
Qed.

(** X1: when the executable cannot be started the whole tool stops at the
    first measurement: the error of [cmd.Start] is reported through
    [log.Fatal] right after the start timestamp was read; no check is made
    and no statistics are printed.  The first measurement is the first dry
    run, or the first counted run when no dry run is requested. *)
Theorem spawn_error_aborts (E : Env) (L : Stats) (fuel : nat) (mode : string)
    (dryRuns runs pauseDuration : Z) (target executable : string)
    (args : list string) (h : list Event) (err : error) :
  executable <> "" ->
  mode = "tcp-connect" \/ mode = "http-get" ->
  (1 <= dryRuns ->
   start_process E (List.length h + 2) executable args = inr err ->
   action (L := L) E fuel mode dryRuns runs pauseDuration target executable args h
   = (Fatal err,
      h ++ [EPrint Cyan "Dry runs" [];
            ENow (clock E (List.length h + 1)); EStart executable args (inr err)]))
  /\ (dryRuns <= 0 -> 1 <= runs ->
      start_process E (List.length h + 3) executable args = inr err ->
      action (L := L) E fuel mode dryRuns runs pauseDuration target executable args h
      = (Fatal err,
         h ++ [EPrint Cyan "Dry runs" []; EPrint Green "Runs" [];
               ENow (clock E (List.length h + 2));
               EStart executable args (inr err)])).
Proof.
  intros Hexe Hmode. apply valid_mode_true in Hmode.
  unfold action. rewrite (executable_given executable Hexe).
  unfold benchmark, dry_runs, counted_runs.
  split.
  - intros Hdry Hboot.
    erewrite bind_done by apply color_Print_run.
    destruct (Z.to_nat dryRuns) as [ | count] eqn:Hcount; [lia | ].
    apply bind_fatal. apply for_range_fatal. apply bind_fatal.
    rewrite measure_spawn_error with (err := err).
    + rewrite length_snoc, <- app_assoc.
      replace (S (List.length h)) with (List.length h + 1)%nat by lia.
      reflexivity.
    + exact Hmode.
    + rewrite length_snoc.
      replace (S (S (List.length h))) with (List.length h + 2)%nat by lia.
      exact Hboot.
  - intros Hdry Hruns Hboot.
    erewrite bind_done by apply color_Print_run.
    replace (Z.to_nat dryRuns) with O by lia.
    erewrite bind_done by reflexivity.
    assert (Hneg : (runs <? 0) = false) by (apply Z.ltb_ge; lia).
    rewrite Hneg.
    erewrite bind_done by reflexivity.
    erewrite bind_done by apply color_Print_run.
    destruct (Z.to_nat runs) as [ | count] eqn:Hcount; [lia | ].
    apply bind_fatal. apply for_range_fatal. apply bind_fatal.
    rewrite measure_spawn_error with (err := err).
    + rewrite !length_snoc, <- !app_assoc.
      replace (S (S (List.length h))) with (List.length h + 2)%nat by lia.
      reflexivity.
    + exact Hmode.
    + rewrite !length_snoc.
      replace (S (S (S (List.length h)))) with (List.length h + 3)%nat by lia.
      exact Hboot.
Qed.

(** The default flags on a machine without the executable. *)
Lemma spawn_error_aborts_witness :
  action barren_world 5 "http-get" 2 20 10 "http://localhost:8080/" "python" [] []
  = (Fatal "executable file not found in $PATH",
     [EPrint Cyan "Dry runs" []; ENow 1000000;
      EStart "python" [] (inr "executable file not found in $PATH")]).
Proof.
  refine (proj1 (spawn_error_aborts barren_world spec_stats 5 "http-get" 2 20 10
                   "http://localhost:8080/" "python" [] []
                   "executable file not found in $PATH" _ (or_intror eq_refl))
            _ eq_refl).
  - discriminate.
  - lia.
Defined.

(** ** The server that never answers *)

Lemma no_kill_in_checks (E : Env) mode target ks :
  children_killed (map (check_event E mode target) ks) = [].
Proof.
  induction ks as [ | k ks IH]; [reflexivity | ].
  unfold children_killed in *. simpl. rewrite IH.
  unfold check_event. destruct (String.eqb mode "tcp-connect"); reflexivity.
Qed.

(** X2: when the child starts and no check is ever answered, [measure]
    never returns: however many iterations of its loop are followed, it is
    still polling, it has made one check per iteration and nothing else,
    and the child has not been killed. *)
Theorem measure_hangs (E : Env) (fuel : nat) (mode target command : string)
    (args : list string) (h : list Event) (cmd : Cmd) :
  mode = "tcp-connect" \/ mode = "http-get" ->
  start_process E (S (List.length h)) command args = inl cmd ->
  (forall k, answers E mode target k = false) ->
  exists tail,
    measure E fuel mode target command args h = (Polling, h ++ tail)
    /\ tail = [ENow (clock E (List.length h)); EStart command args (inl cmd)]
                ++ map (check_event E mode target) (seq (List.length h + 2) fuel)
    /\ List.length tail = (fuel + 2)%nat
    /\ children_killed tail = [].
Proof.
  intros Hmode Hboot Hnever. apply valid_mode_true in Hmode.
  eexists. split; [ | split; [reflexivity | split] ].
  - rewrite measure_unfold by exact Hmode. rewrite Hboot.
    rewrite poll_keeps_polling by (intros i _; apply Hnever).
    rewrite length_app. cbn [List.length].
    now rewrite <- app_assoc.
  - rewrite length_app, length_map, length_seq. simpl. lia.
  - unfold children_killed. rewrite flat_map_app.
    fold (children_killed (map (check_event E mode target)
                             (seq (List.length h + 2) fuel))).
    rewrite no_kill_in_checks. reflexivity.
Qed.

Lemma measure_hangs_witness :
  exists tail,
    measure silent_world 1000 "http-get" "http://localhost:8080/" "python" [] []
    = (Polling, [] ++ tail)
    /\ tail = [ENow (clock silent_world 0);
               EStart "python" [] (inl {| Process := 1 |})]
                ++ map (check_event silent_world "http-get" "http://localhost:8080/")
                     (seq 2 1000)
    /\ List.length tail = 1002%nat
    /\ children_killed tail = [].
Proof.
  apply (measure_hangs silent_world 1000 "http-get" "http://localhost:8080/"
           "python" [] [] {| Process := 1 |}).
  - right. reflexivity.
  - reflexivity.
  - intros k. reflexivity.
Defined.

(** ** A negative number of runs *)

(** X3: with [runs < 0], and in a world where every measurement ends,
    [benchmark] makes all the dry runs and then panics when it allocates
    the slice of durations: nothing of the counted runs is printed, not
    even their title, and no statistics. *)
Theorem negative_runs_panic (E : Env) (L : Stats) (fuel : nat)
    (mode target command : string) (args : list string)
    (pauseBetweenRuns : Duration) (dryRuns runs : Z) (h : list Event) :
  mode = "tcp-connect" \/ mode = "http-get" ->
  always_starts E command args ->
  answers_within E mode target fuel ->
  runs < 0 ->
  exists dry pre,
    benchmark (L := L) E fuel mode dryRuns runs pauseBetweenRuns target command args h
    = (Panic "makeslice: len out of range", h ++ pre)
    /\ List.length dry = Z.to_nat dryRuns
    /\ filter outline pre
       = [EPrint Cyan "Dry runs" []]
           ++ flat_map (run_outline Cyan command args pauseBetweenRuns) dry.
Proof.
  intros Hmode Hstarts Hanswers Hruns. apply valid_mode_true in Hmode.
  destruct (dry_loop E fuel mode target command args pauseBetweenRuns
              Hmode Hstarts Hanswers (Z.to_nat dryRuns) 0
              (h ++ [EPrint Cyan "Dry runs" []]))
    as (dry & t1 & Hdry & Hlen & Hout).
  exists dry, ([EPrint Cyan "Dry runs" []] ++ t1).
  split; [ | split; [exact Hlen | ] ].
  - unfold benchmark, dry_runs.
    erewrite bind_done by apply color_Print_run.
    erewrite bind_done by exact Hdry.
    apply Z.ltb_lt in Hruns. rewrite Hruns.
    rewrite <- app_assoc. reflexivity.
  - rewrite filter_app, Hout. reflexivity.
Qed.

Lemma negative_runs_panic_witness :
  exists dry pre,
    benchmark ready_world 1 "tcp-connect" 1 (-1) (10 * Second)
      "localhost:8080" "python" [] []
    = (Panic "makeslice: len out of range", [] ++ pre)
    /\ List.length dry = 1%nat
    /\ filter outline pre
       = [EPrint Cyan "Dry runs" []]
           ++ flat_map (run_outline Cyan "python" [] (10 * Second)) dry.
Proof.
  apply (negative_runs_panic ready_world spec_stats 1 "tcp-connect"
           "localhost:8080" "python" [] (10 * Second) 1 (-1) []).
  - left. reflexivity.
  - intros k. eexists. reflexivity.
  - intros k. exists O. split; [lia | split; [intros i Hi; lia | reflexivity] ].
  - lia.
Defined.

(** ** Durations and [float64] *)

Section Conversions.

Local Open Scope Q_scope.

Lemma quot_floor (q : Q) :
  0 <= q -> Z.quot (Qnum q) (Zpos (Qden q)) = Qfloor q.
Proof.
  destruct q as [n d]. unfold Qle, Qfloor. simpl.
  intros Hn. apply Z.quot_div_nonneg; lia.
Qed.

Lemma quot_ceiling (q : Q) :
  q <= 0 -> Z.quot (Qnum q) (Zpos (Qden q)) = Qceiling q.
Proof.
  destruct q as [n d]. unfold Qle, Qceiling, Qfloor, Qopp. simpl.
  intros Hn.
  rewrite <- (Z.opp_involutive n) at 1.
  rewrite Z.quot_opp_l by lia.
  f_equal. apply Z.quot_div_nonneg; lia.
Qed.

(** Within the range, the conversion is the truncation. *)
Lemma float64ToDuration_fits (q : Q) :
  fits_int64 q ->
  float64ToDuration (Finite q) = Z.quot (Qnum q) (Zpos (Qden q))
  /\ (minInt64 <= Z.quot (Qnum q) (Zpos (Qden q)) <= maxInt64)%Z.
Proof.
  intros [Hlow Hhigh].
  assert (Hrange : (minInt64 <= Z.quot (Qnum q) (Zpos (Qden q)) <= maxInt64)%Z).
  { destruct (Qlt_le_dec q 0) as [Hneg | Hpos].
    - rewrite quot_ceiling by now apply Qlt_le_weak. split.
      + assert (H : inject_Z (minInt64 - 1) < inject_Z (Qceiling q)).
        { apply Qlt_le_trans with q; [ | apply Qle_ceiling].
          unfold Zminus. rewrite inject_Z_plus. exact Hlow. }
        rewrite <- Zlt_Qlt in H. lia.
      + apply Z.le_trans with 0%Z; [ | discriminate].
        change 0%Z with (Qceiling 0). apply Qceiling_resp_le.
        now apply Qlt_le_weak.
    - rewrite quot_floor by exact Hpos. split.
      + apply Z.le_trans with 0%Z; [discriminate | ].
        change 0%Z with (Qfloor 0). now apply Qfloor_resp_le.
      + assert (H : inject_Z (Qfloor q) < inject_Z (maxInt64 + 1)).
        { apply Qle_lt_trans with q; [apply Qfloor_le | ].
          rewrite inject_Z_plus. exact Hhigh. }
        rewrite <- Zlt_Qlt in H. lia. }
  split; [ | exact Hrange].
  unfold float64ToDuration, int64_of_float64. cbv zeta.
  destruct Hrange as [H1 H2].
  apply Z.leb_le in H1, H2. now rewrite H1, H2.
Qed.

End Conversions.

(** X4: on a finite value whose whole part fits an [int64],
    [float64ToDuration] drops the fraction, towards zero: a non-negative
    value goes to the largest whole number of nanoseconds below it, a
    negative one to the smallest above it; the result is less than one
    nanosecond away, it is an [int64], and the conversion keeps the order
    of such values. *)
Theorem float64ToDuration_truncates (p q : Q) :
  fits_int64 p ->
  fits_int64 q ->
  ((0 <= p -> inject_Z (float64ToDuration (Finite p)) <= p
                < inject_Z (float64ToDuration (Finite p)) + 1)
   /\ (p <= 0 -> inject_Z (float64ToDuration (Finite p)) - 1 < p
                 <= inject_Z (float64ToDuration (Finite p)))
   /\ (p <= q ->
       (float64ToDuration (Finite p) <= float64ToDuration (Finite q))%Z)
   /\ (minInt64 <= float64ToDuration (Finite p) <= maxInt64)%Z)%Q.
Proof.
  intros Hp Hq.
  destruct (float64ToDuration_fits p Hp) as [Ep Rp].
  destruct (float64ToDuration_fits q Hq) as [Eq _].
  rewrite Ep, Eq.
  split; [ | split; [ | split; [ | exact Rp] ] ].
  - intros Hf. rewrite quot_floor by exact Hf. split.
    + apply Qfloor_le.
    + change 1%Q with (inject_Z 1). rewrite <- inject_Z_plus. apply Qlt_floor.
  - intros Hf. rewrite quot_ceiling by exact Hf. split.
    + unfold Qminus. change (- (1))%Q with (inject_Z (- 1)).
      rewrite <- inject_Z_plus.
      replace (Qceiling p + -1)%Z with (Qceiling p - 1)%Z by lia.
      apply Qceiling_lt.
    + apply Qle_ceiling.
  - intros Hpq.
    destruct (Qlt_le_dec p 0) as [Hpneg | Hppos];
      destruct (Qlt_le_dec q 0) as [Hqneg | Hqpos].
    + rewrite !quot_ceiling by now apply Qlt_le_weak.
      now apply Qceiling_resp_le.
    + rewrite quot_ceiling by now apply Qlt_le_weak.
      rewrite quot_floor by exact Hqpos.
      apply Z.le_trans with 0%Z.
      * change 0%Z with (Qceiling 0). apply Qceiling_resp_le.
        now apply Qlt_le_weak.
      * change 0%Z with (Qfloor 0). now apply Qfloor_resp_le.
    + exfalso. apply (Qlt_irrefl 0).
      apply Qle_lt_trans with q; [ | exact Hqneg].
      now apply Qle_trans with p.
    + rewrite !quot_floor; [now apply Qfloor_resp_le | exact Hqpos | exact Hppos].
Qed.

(** A median of two and a half nanoseconds below zero, and one above. *)
Lemma float64ToDuration_truncates_witness :
  float64ToDuration (Finite (- 5 # 2)) = (- 2)%Z
  /\ float64ToDuration (Finite (5 # 2)) = 2%Z
  /\ (float64ToDuration (Finite (- 5 # 2)) <= float64ToDuration (Finite (5 # 2)))%Z.
Proof.
  split; [reflexivity | split; [reflexivity | ] ].
  refine (proj1 (proj2 (proj2 (float64ToDuration_truncates (- 5 # 2) (5 # 2) _ _))) _).
  - split; reflexivity.
  - split; reflexivity.
  - discriminate.
Defined.

(** Up to 53 bits an integer is a [float64]. *)
Lemma round_to_53_bits_exact (n : Z) :
  0 <= n <= 2 ^ 53 -> round_to_53_bits n = n.
Proof.
  intros [Hlow Hhigh]. unfold round_to_53_bits. cbv zeta.
  destruct (Z.eq_dec n (2 ^ 53)) as [-> | Hne]; [reflexivity | ].
  assert (Hlog : Z.log2 n < 53).
  { destruct (Z.eq_dec n 0) as [-> | Hpos]; [reflexivity | ].
    apply Z.log2_lt_pow2; lia. }
  assert (He : (Z.log2 n - 52 <=? 0) = true) by (apply Z.leb_le; lia).
  now rewrite He.
Qed.

(** The conversion to [float64] and back. *)
Lemma int64_float64_int64 (d : Z) :
  - 2 ^ 53 <= d <= 2 ^ 53 -> float64ToDuration (float64_of_int64 d) = d.
Proof.
  intros Hd.
  assert (Hround : float64_of_int64 d = Finite (inject_Z d)).
  { unfold float64_of_int64. destruct (0 <=? d) eqn:Hsign.
    - apply Z.leb_le in Hsign. rewrite round_to_53_bits_exact by lia.
      reflexivity.
    - apply Z.leb_gt in Hsign. rewrite round_to_53_bits_exact by lia.
      now rewrite Z.opp_involutive. }
  rewrite Hround. unfold float64ToDuration, int64_of_float64. simpl.
  rewrite Z.quot_1_r.
  assert (H1 : (minInt64 <=? d) = true).
  { apply Z.leb_le. unfold minInt64.
    change (2 ^ 63) with 9223372036854775808.
    change (2 ^ 53) with 9007199254740992 in Hd. lia. }
  assert (H2 : (d <=? maxInt64) = true).
  { apply Z.leb_le. unfold maxInt64.
    change (2 ^ 63) with 9223372036854775808.
    change (2 ^ 53) with 9007199254740992 in Hd. lia. }
  now rewrite H1, H2.
Qed.

(** X5: durations that were stored as [float64] values, as [benchmark]
    stores its measurements, come back unchanged from [float64ToDuration]
    and, as a list, from [float64DataToDurations], in the same order (for
    the durations a [float64] holds exactly, up to 2^53 nanoseconds either
    way); on any data [float64DataToDurations] returns one duration per
    value. *)
Theorem durations_round_trip (ds : list Duration) :
  Forall (fun d => - 2 ^ 53 <= d <= 2 ^ 53) ds ->
  float64DataToDurations (map float64_of_int64 ds) = ds
  /\ Forall (fun d => float64ToDuration (float64_of_int64 d) = d) ds
  /\ forall data : Float64Data,
       List.length (float64DataToDurations data) = List.length data.
Proof.
  intros Hrange. split; [ | split].
  - induction Hrange as [ | d ds Hd Hds IH]; [reflexivity | ].
    cbn [map float64DataToDurations] in *.
    rewrite int64_float64_int64 by exact Hd. f_equal. exact IH.
  - apply Forall_forall. intros d Hin.
    apply int64_float64_int64.
    exact (proj1 (Forall_forall _ _) Hrange d Hin).
  - intros data. apply length_map.
Qed.

Lemma durations_round_trip_witness :
  float64DataToDurations (map float64_of_int64 [4000000; 0; - 1500000000])
  = [4000000; 0; - 1500000000].
Proof.
  apply (durations_round_trip [4000000; 0; - 1500000000]).
  repeat constructor; lia.
Defined.

(** X6: the pause flag counts seconds: for a pause between -9223372036 and
    9223372036 seconds the duration [main] hands to [benchmark] is that
    many times 10^9 nanoseconds; outside of this range the product does not
    fit a [Duration] and another duration is handed over. *)
Theorem pause_in_seconds (E : Env) (L : Stats) (fuel : nat) (mode : string)
    (dryRuns runs pauseDuration : Z) (target executable : string)
    (args : list string) (h : list Event) :
  executable <> "" ->
  (- 9223372036 <= pauseDuration <= 9223372036 ->
   action (L := L) E fuel mode dryRuns runs pauseDuration target executable args h
   = benchmark (L := L) E fuel mode dryRuns runs (pauseDuration * 1000000000)
       target executable args h)
  /\ (pauseDuration < - 9223372036 \/ 9223372036 < pauseDuration ->
      exists pause,
        pause <> pauseDuration * 1000000000
        /\ minInt64 <= pause <= maxInt64
        /\ action (L := L) E fuel mode dryRuns runs pauseDuration target executable args h
           = benchmark (L := L) E fuel mode dryRuns runs pause
               target executable args h).
Proof.
  intros Hexe. unfold action. rewrite (executable_given executable Hexe).
  unfold wrap64, Second, minInt64, maxInt64.
  change (2 ^ 63) with 9223372036854775808.
  change (2 ^ 64) with 18446744073709551616.
  split.
  - intros Hrange. rewrite Z.mod_small by lia.
    replace (pauseDuration * 1000000000 + 9223372036854775808
             - 9223372036854775808)
      with (pauseDuration * 1000000000) by lia.
    reflexivity.
  - intros Hout.
    exists ((pauseDuration * 1000000000 + 9223372036854775808)
              mod 18446744073709551616 - 9223372036854775808).
    pose proof (Z.mod_pos_bound
                  (pauseDuration * 1000000000 + 9223372036854775808)
                  18446744073709551616 ltac:(lia)) as Hmod.
    split; [lia | split; [lia | reflexivity] ].
Qed.

Lemma pause_in_seconds_witness :
  action ready_world 1 "http-get" 0 0 10 "http://localhost:8080/" "python" [] []
  = benchmark ready_world 1 "http-get" 0 0 10000000000
      "http://localhost:8080/" "python" [] [].
Proof.
  refine (proj1 (pause_in_seconds ready_world spec_stats 1 "http-get" 0 0 10
                   "http://localhost:8080/" "python" [] [] _) _).
  - discriminate.
  - lia.
Defined.

(** ** The resources of a measurement *)

Section Resources.

Variable E : Env.

(** A projection of the history that sees nothing in an unanswered check
    sees nothing in a sequence of them. *)
Lemma unanswered_checks_nil {B : Type} (f : Event -> list B) mode target :
  (forall k, answers E mode target k = false ->
             f (check_event E mode target k) = []) ->
  forall n k,
    (forall i, (i < n)%nat -> answers E mode target (k + i) = false) ->
    flat_map f (map (check_event E mode target) (seq k n)) = [].
Proof.
  intros Hf. induction n as [ | n IH]; intros k Hfail; [reflexivity | ].
  cbn [seq map flat_map].
  rewrite Hf by (specialize (Hfail O); rewrite Nat.add_0_r in Hfail; apply Hfail; lia).
  apply IH. intros i Hi.
  replace (S k + i)%nat with (k + S i)%nat by lia. apply Hfail. lia.
Qed.

(** What an answered check is, in each mode. *)
Lemma tcp_answered target k :
  answers E "tcp-connect" target k = true ->
  exists conn,
    check_event E "tcp-connect" target k = EDial "tcp" target (inl conn)
    /\ drained E "tcp-connect" target k = []
    /\ released E "tcp-connect" target k = [EConnClose conn].
Proof.
  unfold answers, check_event, drained, released. simpl.
  destruct (net_dial E k "tcp" target) as [conn | err]; [ | discriminate].
  intros _. exists conn. repeat split.
Qed.

Lemma http_answered target k :
  answers E "http-get" target k = true ->
  exists resp,
    StatusCode resp = 200
    /\ check_event E "http-get" target k = EGet target (inl resp)
    /\ drained E "http-get" target k = [EReadAll (Body resp)]
    /\ released E "http-get" target k = [EBodyClose (Body resp)].
Proof.
  unfold answers, check_event, drained, released. simpl.
  destruct (http_get E k target) as [resp | err]; [ | discriminate].
  intros Hcode. apply Z.eqb_eq in Hcode. exists resp. repeat split. exact Hcode.
Qed.

Lemma tcp_unanswered_opens_nothing target k :
  answers E "tcp-connect" target k = false ->
  (fun e => match e with EDial _ _ (inl c) => [c] | _ => [] end)
    (check_event E "tcp-connect" target k) = [].
Proof.
  unfold answers, check_event. simpl.
  destruct (net_dial E k "tcp" target); [discriminate | reflexivity].
Qed.

Lemma http_unanswered_not_ready target k :
  answers E "http-get" target k = false ->
  (fun e => match e with
            | EGet _ (inl r) => if StatusCode r =? 200 then [Body r] else []
            | _ => []
            end) (check_event E "http-get" target k) = [].
Proof.
  unfold answers, check_event. simpl.
  destruct (http_get E k target) as [resp | err]; [ | reflexivity].
  intros ->. reflexivity.
Qed.

End Resources.

(** X7: in tcp-connect mode a measurement never leaks a connection and
    never speaks HTTP: however the run of [measure] ends (the child does
    not start, the loop is still polling, or a check is answered), the
    connections it opened are exactly the connections it closed, there is
    at most one, and no HTTP request, body read or body close occurs. *)
Theorem tcp_connect_no_leak (E : Env) (fuel : nat) (target command : string)
    (args : list string) (h : list Event) :
  exists tail,
    snd (measure E fuel "tcp-connect" target command args h) = h ++ tail
    /\ conns_opened tail = conns_closed tail
    /\ (List.length (conns_opened tail) <= 1)%nat
    /\ existsb http_traffic tail = false.
Proof.
  assert (Hnone : forall n k,
             (forall i, (i < n)%nat ->
                answers E "tcp-connect" target (k + i) = false) ->
             conns_opened (map (check_event E "tcp-connect" target) (seq k n)) = []
             /\ conns_closed (map (check_event E "tcp-connect" target) (seq k n)) = []
             /\ existsb http_traffic
                  (map (check_event E "tcp-connect" target) (seq k n)) = false).
  { intros n k Hfail. split; [ | split].
    - apply unanswered_checks_nil; [ | exact Hfail].
      apply tcp_unanswered_opens_nothing.
    - apply unanswered_checks_nil; [ | exact Hfail]. reflexivity.
    - induction (seq k n) as [ | j js IH]; [reflexivity | ].
      simpl. exact IH. }
  destruct (measure_cases E fuel "tcp-connect" target command args h eq_refl)
    as [(err & Hrun) | [(cmd & Hfail & Hrun) | (cmd & n & Hfail & Hok & Hrun)] ].
  - rewrite Hrun. eexists. split; [reflexivity | ]. repeat split. simpl. lia.
  - rewrite Hrun. eexists. split; [reflexivity | ].
    destruct (Hnone fuel (List.length h + 2)%nat Hfail) as (Ho & Hc & Hh).
    unfold conns_opened, conns_closed in *.
    rewrite !flat_map_app, existsb_app, Ho, Hc, Hh.
    repeat split. simpl. lia.
  - cbv zeta in Hrun. rewrite Hrun. eexists. split; [reflexivity | ].
    destruct (Hnone n (List.length h + 2)%nat Hfail) as (Ho & Hc & Hh).
    destruct (tcp_answered E target _ Hok) as (conn & Hev & Hdr & Hrel).
    rewrite Hev, Hdr, Hrel.
    unfold conns_opened, conns_closed in *.
    rewrite !flat_map_app, !existsb_app, Ho, Hc, Hh.
    repeat split. simpl. lia.
Qed.

(** X8: in http-get mode a measurement reads and closes the body of a
    response exactly when the response has status 200, and never opens a
    raw connection: however the run of [measure] ends, the bodies read to
    their end and the bodies closed are the bodies of the responses
    received with status 200, of which there is at most one; the body of a
    response with another status is therefore neither read nor closed by
    the measurement. *)
Theorem http_get_bodies (E : Env) (fuel : nat) (target command : string)
    (args : list string) (h : list Event) :
  exists tail,
    snd (measure E fuel "http-get" target command args h) = h ++ tail
    /\ bodies_read tail = ready_bodies tail
    /\ bodies_closed tail = ready_bodies tail
    /\ (List.length (ready_bodies tail) <= 1)%nat
    /\ existsb tcp_traffic tail = false.
Proof.
  assert (Hnone : forall n k,
             (forall i, (i < n)%nat ->
                answers E "http-get" target (k + i) = false) ->
             ready_bodies (map (check_event E "http-get" target) (seq k n)) = []
             /\ bodies_read (map (check_event E "http-get" target) (seq k n)) = []
             /\ bodies_closed (map (check_event E "http-get" target) (seq k n)) = []
             /\ existsb tcp_traffic
                  (map (check_event E "http-get" target) (seq k n)) = false).
  { intros n k Hfail. split; [ | split; [ | split] ].
    - apply unanswered_checks_nil; [ | exact Hfail].
      apply http_unanswered_not_ready.
    - apply unanswered_checks_nil; [ | exact Hfail]. reflexivity.
    - apply unanswered_checks_nil; [ | exact Hfail]. reflexivity.
    - induction (seq k n) as [ | j js IH]; [reflexivity | ].
      simpl. exact IH. }
  destruct (measure_cases E fuel "http-get" target command args h eq_refl)
    as [(err & Hrun) | [(cmd & Hfail & Hrun) | (cmd & n & Hfail & Hok & Hrun)] ].
  - rewrite Hrun. eexists. split; [reflexivity | ]. repeat split. simpl. lia.
  - rewrite Hrun. eexists. split; [reflexivity | ].
    destruct (Hnone fuel (List.length h + 2)%nat Hfail) as (Hr & Hb & Hc & Ht).
    unfold ready_bodies, bodies_read, bodies_closed in *.
    rewrite !flat_map_app, existsb_app, Hr, Hb, Hc, Ht.
    repeat split. simpl. lia.
  - cbv zeta in Hrun. rewrite Hrun. eexists. split; [reflexivity | ].
    destruct (Hnone n (List.length h + 2)%nat Hfail) as (Hr & Hb & Hc & Ht).
    destruct (http_answered E target _ Hok) as (resp & Hcode & Hev & Hdr & Hrel).
    rewrite Hev, Hdr, Hrel.
    unfold ready_bodies, bodies_read, bodies_closed in *.
    rewrite !flat_map_app, !existsb_app, Hr, Hb, Hc, Ht.
    cbn [flat_map app existsb tcp_traffic orb List.length].
    apply Z.eqb_eq in Hcode. rewrite Hcode.
    repeat split. simpl. lia.
Qed.

(** ** The duration a measurement returns *)

Lemma saturate_range z : minInt64 <= saturate z <= maxInt64.
Proof.
  unfold saturate, minInt64, maxInt64.
  change (2 ^ 63) with 9223372036854775808. lia.
Qed.

Lemma saturate_nonneg z : 0 <= z -> 0 <= saturate z.
Proof.
  unfold saturate, minInt64, maxInt64.
  change (2 ^ 63) with 9223372036854775808. lia.
Qed.

(** X9: the duration a measurement returns always fits a [Duration], and
    it is never negative when the clock does not go backwards: it is the
    (saturated) difference of two readings of the clock, the later one
    taken after the answered check. *)
Theorem measured_duration_bounds (E : Env) (fuel : nat)
    (mode target command : string) (args : list string) (h h' : list Event)
    (d : Duration) :
  measure E fuel mode target command args h = (Done d, h') ->
  minInt64 <= d <= maxInt64
  /\ (monotone_clock E -> 0 <= d)
  /\ exists k, (List.length h + 2 < k)%nat
               /\ d = saturate (clock E k - clock E (List.length h))
               /\ In (ESince (clock E (List.length h)) d) h'.
Proof.
  intros Hrun.
  destruct (valid_mode mode) eqn:Hmode.
  - destruct (measure_cases E fuel mode target command args h Hmode)
      as [(err & Hcase) | [(cmd & Hfail & Hcase) | (cmd & n & Hfail & Hok & Hcase)] ].
    + rewrite Hcase in Hrun. discriminate.
    + rewrite Hcase in Hrun. discriminate.
    + cbv zeta in Hcase. rewrite Hcase in Hrun.
      injection Hrun as Hd Hh'. subst d h'.
      split; [apply saturate_range | split].
      * intros Hclock. apply saturate_nonneg.
        assert (clock E (List.length h)
                <= clock E (List.length h + 2 + n + 1
                            + List.length (drained E mode target (List.length h + 2 + n))))
          by (apply Hclock; lia).
        lia.
      * eexists. split; [ | split; [reflexivity | ] ].
        -- lia.
        -- apply in_or_app. right. right. right.
           apply in_or_app. right. right.
           apply in_or_app. right. now left.
  - rewrite measure_invalid in Hrun by exact Hmode. discriminate.
Qed.

Lemma measured_duration_bounds_witness :
  minInt64 <= 6000000 <= maxInt64
  /\ (monotone_clock slow_world -> 0 <= 6000000)
  /\ exists k, (0 + 2 < k)%nat
               /\ 6000000 = saturate (clock slow_world k - clock slow_world 0)
               /\ In (ESince (clock slow_world 0) 6000000)
                    [ENow 0; EStart "python" [] (inl {| Process := 1 |});
                     EGet "http://localhost:8080/" (inl {| StatusCode := 503; Body := 2 |});
                     EGet "http://localhost:8080/" (inl {| StatusCode := 503; Body := 3 |});
                     EGet "http://localhost:8080/" (inl {| StatusCode := 200; Body := 4 |});
                     EReadAll 4; ESince 0 6000000; EBodyClose 4; EKill 1; EWait 1].
Proof.
  apply (measured_duration_bounds slow_world 10 "http-get"
           "http://localhost:8080/" "python" [] []).
  reflexivity.
Defined.
